(** * b2bTender backend: authorization and resource-ownership model

    A shallow embedding of the Express routes of the tendering API
    ([src/routes/auth.ts], [src/routes/dashboard.ts],
    [src/routes/tenders.ts]) and of the [verifyJWT] middleware.

    The hosted database, the blob storage, [jsonwebtoken] and [bcryptjs]
    are collaborators that live outside the repository.  The database is
    modelled as three tables held in lists, every call to it may fail, and
    every call is logged; the cryptographic and pattern-matching primitives,
    and JavaScript's own lower-casing of strings, are the fields of the
    class [External]. *)

From Stdlib Require Import String Ascii List ZArith QArith Bool Lia.
From Stdlib Require Import Sorting.Permutation Sorting.Sorted.
From Stdlib Require Import DecimalString.
Import ListNotations.

Local Open Scope string_scope.
Local Open Scope list_scope.
Local Open Scope Z_scope.

(** ** JavaScript strings *)

Module Js.

(** [s.startsWith(p)] *)
Definition startsWith (s p : string) : bool := String.prefix p s.

(** [s.split(sep)] for a one-character separator: the pieces between the
    occurrences of [sep], in order; the empty string gives one empty piece. *)
Fixpoint split (sep : ascii) (s : string) : list string :=
  match s with
  | EmptyString => [EmptyString]
  | String c rest =>
      if Ascii.eqb c sep then EmptyString :: split sep rest
      else match split sep rest with
           | [] => [String c EmptyString]
           | piece :: pieces => String c piece :: pieces
           end
  end.

(** [xs.pop()] on a fresh array: its last element. *)
Fixpoint pop (xs : list string) : option string :=
  match xs with
  | [] => None
  | [x] => Some x
  | _ :: rest => pop rest
  end.

(** [hay.includes(needle)] *)
Fixpoint includes (hay needle : string) : bool :=
  String.prefix needle hay ||
  match hay with
  | EmptyString => false
  | String _ rest => includes rest needle
  end.

(** Truthiness of a possibly absent string: [undefined] and [''] are falsy. *)
Definition truthy_str (v : option string) : bool :=
  match v with
  | Some s => negb (String.eqb s EmptyString)
  | None => false
  end.

(** Truthiness of a possibly absent number: [undefined] and [0] are falsy. *)
Definition truthy_num (v : option Q) : bool :=
  match v with
  | Some q => negb (Z.eqb (Qnum q) 0)
  | None => false
  end.

End Js.

(** ** JSON values and HTTP responses *)

#[warnings="-register-all"]
Inductive Json : Type :=
| JNull
| JBool (b : bool)
| JNum (q : Q)
| JInt (z : Z)
| JStr (s : string)
| JArr (items : list Json)
| JObj (fields : list (string * Json)).

(** Member access on a JSON object. *)
Fixpoint assoc (k : string) (fields : list (string * Json)) : option Json :=
  match fields with
  | [] => None
  | (k', v) :: rest => if String.eqb k k' then Some v else assoc k rest
  end.

Definition member (k : string) (j : Json) : option Json :=
  match j with
  | JObj fields => assoc k fields
  | _ => None
  end.

Definition keys (j : Json) : list string :=
  match j with
  | JObj fields => map fst fields
  | _ => []
  end.

Record Response := mkResponse { status : Z; body : Json }.

(** [res.status(code).json({ message })] *)
Definition message_response (code : Z) (msg : string) : Response :=
  mkResponse code (JObj [("message", JStr msg)]).

(** [res.status(code).json({ error, message })] *)
Definition error_response (code : Z) (err msg : string) : Response :=
  mkResponse code (JObj [("error", JStr err); ("message", JStr msg)]).

(** A value that a store call hands back in its [error] field, and that a
    handler may [throw]: its [message], and whether it is an instance of the
    JavaScript [Error] class. *)
Record JsError := mkJsError { message : string; instanceofError : bool }.

(** What a handler (or middleware) did with a request: sent a response,
    sent one and then called [next(error)], or only called [next(error)]
    and left the answer to the framework. *)
Inductive Outcome : Type :=
| Sent (r : Response)
| SentThenNextErr (r : Response) (e : JsError)
| NextErr (e : JsError).

Definition sent (o : Outcome) : option Response :=
  match o with
  | Sent r => Some r
  | SentThenNextErr r _ => Some r
  | NextErr _ => None
  end.

Definition sent_status (o : Outcome) : option Z := option_map status (sent o).

(** ** Identities and tokens *)

(** The [user] member of [AuthRequest]: what a token carries. *)
Record AuthUser := mkAuthUser { userId : string; email : string }.

Module Jwt.

(** The payload of a signed token: the caller's claims with the issuance
    and expiry timestamps, both in whole seconds (NumericDate). *)
Record Claims := mkClaims { sub : AuthUser; iat : Z; exp : Z }.

Record Token := mkToken { claims : Claims; signature : string }.

Inductive VerifyError : Type :=
| JwtMustBeProvided
| JwtMalformed
| SecretMustBeProvided
| InvalidSignature
| TokenExpired.

Inductive Verified : Type :=
| Decoded (u : AuthUser)
| Thrown (e : VerifyError).

End Jwt.

(** The primitives of the libraries and services the routes call. *)
Class External := {
  (** [String.prototype.toLowerCase], on every cased letter *)
  toLowerCase : string -> string;
  (** compact serialisation of a token and its parser *)
  jwt_encode : Jwt.Token -> string;
  jwt_decode : string -> option Jwt.Token;
  (** keyed signature of a payload: [hmac secret payload] *)
  hmac : string -> Jwt.Claims -> string;
  (** [bcrypt.hash(password, 10)] and [bcrypt.compare(password, hash)] *)
  bcrypt_hash : string -> string;
  bcrypt_compare : string -> string -> bool;
  (** the store's [column.ilike.pattern] filter: [ilike text pattern] *)
  ilike : string -> string -> bool;
  (** [storage.from('logos').getPublicUrl(path).data.publicUrl] *)
  publicUrl : string -> string
}.

Module JwtLib.
Section WithExternal.
Context {ext : External}.

(** [expiresIn: '1h'], in seconds. *)
Definition expiresIn_1h : Z := 60 * 60.

(** The token [jwt.sign(payload, secret, { expiresIn })] returns when the
    clock reads [clockTimestamp] seconds: the payload with [iat] and [exp],
    signed under the secret. *)
Definition signed (payload : AuthUser) (secret : string) (expiresIn : Z)
  (clockTimestamp : Z) : string :=
  let c := Jwt.mkClaims payload clockTimestamp (clockTimestamp + expiresIn) in
  jwt_encode (Jwt.mkToken c (hmac secret c)).

(** What [jwt.sign] throws when the secret is the empty string or is unset. *)
Definition secret_missing : JsError :=
  mkJsError "secretOrPrivateKey must have a value" true.

(** [jwt.sign(payload, secret, { expiresIn })]: it throws without a secret
    (an unset [JWT_SECRET] is read as the empty string) and returns the
    signed token otherwise. *)
Definition sign (payload : AuthUser) (secret : string) (expiresIn : Z)
  (clockTimestamp : Z) : JsError + string :=
  if String.eqb secret EmptyString then inl secret_missing
  else inr (signed payload secret expiresIn clockTimestamp).

(** [jwt.verify(token, secret)] when the clock reads [clockTimestamp]
    seconds: the token is parsed, a secret is required, the signature is
    recomputed, and the expiry is compared with the clock. *)
Definition verify (token : option string) (secret : string)
  (clockTimestamp : Z) : Jwt.Verified :=
  match token with
  | None => Jwt.Thrown Jwt.JwtMustBeProvided
  | Some t =>
      match jwt_decode t with
      | None => Jwt.Thrown Jwt.JwtMalformed
      | Some tk =>
          if String.eqb secret EmptyString
          then Jwt.Thrown Jwt.SecretMustBeProvided
          else if negb (String.eqb (hmac secret (Jwt.claims tk))
                          (Jwt.signature tk))
          then Jwt.Thrown Jwt.InvalidSignature
          else if clockTimestamp >=? Jwt.exp (Jwt.claims tk)
          then Jwt.Thrown Jwt.TokenExpired
          else Jwt.Decoded (Jwt.sub (Jwt.claims tk))
      end
  end.

End WithExternal.
End JwtLib.

(** ** The external store *)

Module User.
Record t := mk {
  id : string; name : string; email : string; password : string;
  company_name : string; industry : string; industry_description : string;
  logo : string }.
End User.

Module Tender.
Record t := mk {
  id : string; title : string; description : string; budget : Q;
  deadline : string; creator_id : string; created_at : Z }.
End Tender.

Module Application.
Record t := mk {
  id : string; tender_id : string; applicant_id : string;
  proposal_text : string; status : option string; created_at : Z }.
End Application.

Inductive Table := Users | Tenders | Applications | LogoBucket.
Inductive Op := Select | Insert | Update | Upload.

(** One call to the store, and whether it came back without an [error]. *)
Record Call := mkCall { table : Table; op : Op; succeeded : bool }.

Record Db := mkDb {
  users : list User.t;
  tenders : list Tender.t;
  applications : list Application.t;
  logos : list (string * string);
  next_id : nat }.

(** The world a request runs in: the tables, the clock ([Date.now()], in
    milliseconds), the outages still to come (the n-th entry, when it is
    [Some e], makes the n-th next call fail with [e]) and the log of the
    calls made so far, latest first. *)
Record World := mkWorld {
  db : Db;
  now : Z;
  faults : list (option JsError);
  log : list Call }.

(** What a store call resolves to: [{ data, error: null }] or
    [{ data: null, error }]. *)
Inductive PgResult (A : Type) : Type :=
| Data (data : A)
| Failure (error : JsError).
Arguments Data {A} data.
Arguments Failure {A} error.

Definition is_data {A} (r : PgResult A) : bool :=
  match r with Data _ => true | Failure _ => false end.

(** Handlers are state transformers over the world. *)
Definition M (A : Type) : Type := World -> A * World.

Definition ret {A} (a : A) : M A := fun w => (a, w).

Definition bind {A B} (c : M A) (k : A -> M B) : M B :=
  fun w => let (a, w') := c w in k a w'.

Notation "x <- c ;; k" := (bind c (fun x => k))
  (at level 61, c at next level, right associativity).

(** [Date.now()] *)
Definition dateNow : M Z := fun w => (now w, w).

(** A call to the store: it fails when an outage is due, and otherwise runs
    the query on the tables; either way it is logged. *)
Definition store_call {A} (t : Table) (o : Op)
  (query : Db -> PgResult A * Db) : M (PgResult A) :=
  fun w =>
    match faults w with
    | Some e :: later =>
        (Failure e, mkWorld (db w) (now w) later (mkCall t o false :: log w))
    | due =>
        let (r, d) := query (db w) in
        (r, mkWorld d (now w) (tl due) (mkCall t o (is_data r) :: log w))
    end.

(** [.maybeSingle()]: no row gives [null], one row gives the row, several
    rows are an error. *)
Definition multiple_rows : JsError :=
  mkJsError "JSON object requested, multiple (or no) rows returned" false.

Definition maybeSingle {A} (rows : list A) : PgResult (option A) :=
  match rows with
  | [] => Data None
  | [row] => Data (Some row)
  | _ => Failure multiple_rows
  end.

(** [.order('created_at', { ascending: false })] *)
Fixpoint insert_desc {A} (key : A -> Z) (x : A) (rows : list A) : list A :=
  match rows with
  | [] => [x]
  | y :: rest =>
      if key y <? key x then x :: rows else y :: insert_desc key x rest
  end.

Fixpoint order_desc {A} (key : A -> Z) (rows : list A) : list A :=
  match rows with
  | [] => []
  | x :: rest => insert_desc key x (order_desc key rest)
  end.

(** The identifier the store gives to the next inserted row. *)
Definition fresh_id (d : Db) : string :=
  NilZero.string_of_uint (Nat.to_uint (next_id d)).

(** ** Requests *)

(** [req.file], as multer leaves it. *)
Record UploadedFile := mkUploadedFile {
  originalname : string; mimetype : string; buffer : string }.

(** [req.body]: the members the handlers destructure.  Each may be absent;
    the members the TypeScript interfaces ([SignupBody], [LoginBody],
    [TenderBody]) declare are typed as declared, [status] is any JSON value. *)
Module Body.
Record t := mk {
  name : option string; email : option string; password : option string;
  company_name : option string; industry : option string;
  industry_description : option string;
  title : option string; description : option string; budget : option Q;
  deadline : option string;
  proposal_text : option string;
  status : option Json }.

Definition empty : t :=
  mk None None None None None None None None None None None None.
End Body.

Module Req.
Record t := mk {
  authorization : option string;   (* req.headers.authorization *)
  params_id : string;              (* req.params.id *)
  query_q : option string;         (* req.query.q *)
  body : Body.t;
  file : option UploadedFile }.
End Req.

(** A request that went through [verifyJWT]: [req.user] is set. *)
Record AuthRequest := mkAuthRequest { user : AuthUser; request : Req.t }.

(** [process.env] *)
Record Env := mkEnv { JWT_SECRET : string; NODE_ENV : option string }.

(** The string a present member holds. *)
Definition value (v : option string) : string :=
  match v with Some s => s | None => EmptyString end.

Definition number (v : option Q) : Q :=
  match v with Some q => q | None => 0%Q end.

(** ** Rows as JSON *)

Definition user_public_json (u : User.t) : Json :=
  JObj [("id", JStr (User.id u)); ("name", JStr (User.name u));
        ("email", JStr (User.email u));
        ("company_name", JStr (User.company_name u));
        ("industry", JStr (User.industry u));
        ("industry_description", JStr (User.industry_description u));
        ("logo", JStr (User.logo u))].

(** [select('*')] on [tenders] *)
Definition tender_json (t : Tender.t) : Json :=
  JObj [("id", JStr (Tender.id t)); ("title", JStr (Tender.title t));
        ("description", JStr (Tender.description t));
        ("budget", JNum (Tender.budget t));
        ("deadline", JStr (Tender.deadline t));
        ("creator_id", JStr (Tender.creator_id t));
        ("created_at", JInt (Tender.created_at t))].

(** [select('title, description, budget, deadline, creator_id')] *)
Definition tender_search_json (t : Tender.t) : Json :=
  JObj [("title", JStr (Tender.title t));
        ("description", JStr (Tender.description t));
        ("budget", JNum (Tender.budget t));
        ("deadline", JStr (Tender.deadline t));
        ("creator_id", JStr (Tender.creator_id t))].

Definition status_json (s : option string) : Json :=
  match s with Some v => JStr v | None => JNull end.

(** [select('id, proposal_text, applicant_id, created_at')] *)
Definition application_json (a : Application.t) : Json :=
  JObj [("id", JStr (Application.id a));
        ("proposal_text", JStr (Application.proposal_text a));
        ("applicant_id", JStr (Application.applicant_id a));
        ("created_at", JInt (Application.created_at a))].

(** [select('id, proposal_text, applicant_id, status, created_at')], nested *)
Definition application_nested_json (a : Application.t) : Json :=
  JObj [("id", JStr (Application.id a));
        ("proposal_text", JStr (Application.proposal_text a));
        ("applicant_id", JStr (Application.applicant_id a));
        ("status", status_json (Application.status a));
        ("created_at", JInt (Application.created_at a))].

(** ** Queries *)

Definition users_by_email (e : string) (d : Db) : list User.t :=
  filter (fun u => String.eqb (User.email u) e) (users d).

Definition users_by_id (i : string) (d : Db) : list User.t :=
  filter (fun u => String.eqb (User.id u) i) (users d).

Definition tenders_by_id (i : string) (d : Db) : list Tender.t :=
  filter (fun t => String.eqb (Tender.id t) i) (tenders d).

(** [.eq('creator_id', userId).order('created_at', { ascending: false })] *)
Definition tenders_of (creator : string) (d : Db) : list Tender.t :=
  order_desc Tender.created_at
    (filter (fun t => String.eqb (Tender.creator_id t) creator) (tenders d)).

(** [.neq('creator_id', userId).order('created_at', { ascending: false })] *)
Definition tenders_not_of (creator : string) (d : Db) : list Tender.t :=
  order_desc Tender.created_at
    (filter (fun t => negb (String.eqb (Tender.creator_id t) creator))
       (tenders d)).

Definition applications_by_id (i : string) (d : Db) : list Application.t :=
  filter (fun a => String.eqb (Application.id a) i) (applications d).

Definition applications_of_tender (i : string) (d : Db) : list Application.t :=
  order_desc Application.created_at
    (filter (fun a => String.eqb (Application.tender_id a) i) (applications d)).

Definition applications_of_applicant (i : string) (d : Db)
  : list Application.t :=
  order_desc Application.created_at
    (filter (fun a => String.eqb (Application.applicant_id a) i)
       (applications d)).

(** [from('users').insert([row]).select().single()]: the stored row comes
    back with the identifier the store gave it. *)
Definition insert_user (name email password company_name industry
  industry_description logo : string) (d : Db) : PgResult User.t * Db :=
  let row := User.mk (fresh_id d) name email password company_name industry
               industry_description logo in
  (Data row,
   mkDb (users d ++ [row]) (tenders d) (applications d) (logos d)
     (S (next_id d))).

(** [from('tenders').insert([row])]; [created_at] is the time of insertion. *)
Definition insert_tender (at_ : Z) (title description : string) (budget : Q)
  (deadline creator_id : string) (d : Db) : PgResult unit * Db :=
  let row := Tender.mk (fresh_id d) title description budget deadline
               creator_id at_ in
  (Data tt,
   mkDb (users d) (tenders d ++ [row]) (applications d) (logos d)
     (S (next_id d))).

(** [from('applications').insert([row])]; [status] takes its default. *)
Definition insert_application (at_ : Z) (tender_id applicant_id
  proposal_text : string) (d : Db) : PgResult unit * Db :=
  let row := Application.mk (fresh_id d) tender_id applicant_id proposal_text
               None at_ in
  (Data tt,
   mkDb (users d) (tenders d) (applications d ++ [row]) (logos d)
     (S (next_id d))).

(** The row with its [status] column set. *)
Definition set_status (st : string) (a : Application.t) : Application.t :=
  Application.mk (Application.id a) (Application.tender_id a)
    (Application.applicant_id a) (Application.proposal_text a) (Some st)
    (Application.created_at a).

(** [from('applications').update({ status }).eq('id', appId)] *)
Definition update_status (appId st : string) (d : Db) : PgResult unit * Db :=
  (Data tt,
   mkDb (users d) (tenders d)
     (map (fun a =>
             if String.eqb (Application.id a) appId then set_status st a
             else a) (applications d))
     (logos d) (next_id d)).

(** [storage.from('logos').upload(path, buffer, { contentType })] *)
Definition upload_logo (path contentType : string) (d : Db)
  : PgResult unit * Db :=
  (Data tt,
   mkDb (users d) (tenders d) (applications d)
     ((path, contentType) :: logos d) (next_id d)).

(** A query that only reads. *)
Definition reading {A} (q : Db -> PgResult A) (d : Db) : PgResult A * Db :=
  (q d, d).

(** The rows the search query returns: the five selected columns; the
    joined [users] member the in-process filter looks at is not selected. *)
Module Owner.
Record t := mk { industry : option string; company_name : option string }.
End Owner.

Module SearchRow.
Record t := mk {
  title : string; description : string; budget : Q; deadline : string;
  creator_id : string; users : option Owner.t }.

Definition of_tender (x : Tender.t) : t :=
  mk (Tender.title x) (Tender.description x) (Tender.budget x)
     (Tender.deadline x) (Tender.creator_id x) None.

Definition json (r : t) : Json :=
  JObj [("title", JStr (title r)); ("description", JStr (description r));
        ("budget", JNum (budget r)); ("deadline", JStr (deadline r));
        ("creator_id", JStr (creator_id r))].
End SearchRow.

(** ** The routes *)

Section Routes.
Context {ext : External}.
Variable env : Env.

(** *** authMiddleware *)

Definition verifyJWT (req : Req.t) (next : AuthRequest -> M Outcome)
  : M Outcome :=
  let authHeader := Req.authorization req in
  if negb (Js.truthy_str authHeader)
     || negb (Js.startsWith (value authHeader) "Bearer ")
  then ret (Sent (message_response 401 "Missing token"))
  else
    let token := nth_error (Js.split " "%char (value authHeader)) 1 in
    t <- dateNow ;;
    match JwtLib.verify token (JWT_SECRET env) (t / 1000) with
    | Jwt.Decoded decoded => next (mkAuthRequest decoded req)
    | Jwt.Thrown _ =>
        ret (Sent (message_response 403 "Invalid or expired token"))
    end.

(** *** routes/auth.ts *)

Definition signup_catch (error : JsError) : Outcome :=
  if instanceofError error
  then SentThenNextErr (error_response 500 "ServerError" (message error)) error
  else SentThenNextErr
         (error_response 500 "UnknownServerError" "Something went wrong") error.

(** The logo upload of signup: the public URL of the stored file, or [''] when
    no file came with the request. *)
Definition signup_logo (req : Req.t) : M (PgResult string) :=
  match Req.file req with
  | None => ret (Data EmptyString)
  | Some f =>
      t <- dateNow ;;
      let fileExt := Js.pop (Js.split "."%char (originalname f)) in
      let filePath :=
        ("logos/" ++ NilZero.string_of_int (Z.to_int t) ++ "."
           ++ value fileExt)%string in
      up <- store_call LogoBucket Upload (upload_logo filePath (mimetype f)) ;;
      match up with
      | Failure uploadError => ret (Failure uploadError)
      | Data _ => ret (Data (publicUrl filePath))
      end
  end.

Definition signupHandler (req : Req.t) : M Outcome :=
  let b := Req.body req in
  if negb (Js.truthy_str (Body.name b)) || negb (Js.truthy_str (Body.email b))
     || negb (Js.truthy_str (Body.password b))
     || negb (Js.truthy_str (Body.company_name b))
     || negb (Js.truthy_str (Body.industry b))
     || negb (Js.truthy_str (Body.industry_description b))
  then ret (Sent (error_response 400 "ValidationError"
                    "All fields are required"))
  else
    existing <- store_call Users Select
      (reading (fun d => maybeSingle (users_by_email (value (Body.email b)) d))) ;;
    match existing with
    | Failure checkError => ret (signup_catch checkError)
    | Data (Some existingUser) =>
        ret (Sent (error_response 409 "UserExistsError"
                     "User with this email already exists"))
    | Data None =>
        uploaded <- signup_logo req ;;
        match uploaded with
        | Failure uploadError => ret (signup_catch uploadError)
        | Data logoUrl =>
            let hashedPassword := bcrypt_hash (value (Body.password b)) in
            created <- store_call Users Insert
              (insert_user (value (Body.name b)) (value (Body.email b))
                 hashedPassword (value (Body.company_name b))
                 (value (Body.industry b))
                 (value (Body.industry_description b)) logoUrl) ;;
            match created with
            | Failure insertError => ret (signup_catch insertError)
            | Data createdUser =>
                ret (Sent (mkResponse 201
                             (JObj [("success", JBool true);
                                    ("data", user_public_json createdUser)])))
            end
        end
    end.

(** [details: NODE_ENV === 'development' ? error.message : undefined] *)
Definition details (error : JsError) : list (string * Json) :=
  match NODE_ENV env with
  | Some mode =>
      if String.eqb mode "development"
      then [("details", JStr (message error))] else []
  | None => []
  end.

Definition unexpected_catch (error : JsError) : Outcome :=
  if instanceofError error
  then Sent (mkResponse 500
               (JObj ([("error", JStr "ServerError");
                       ("message", JStr "An unexpected error occurred")]
                      ++ details error)))
  else NextErr error.

Definition invalid_credentials : Response :=
  error_response 401 "AuthError" "Invalid email or password".

Definition loginHandler (req : Req.t) : M Outcome :=
  let b := Req.body req in
  if negb (Js.truthy_str (Body.email b))
     || negb (Js.truthy_str (Body.password b))
  then ret (Sent (error_response 400 "ValidationError"
                    "Email and password are required"))
  else
    found <- store_call Users Select
      (reading (fun d => maybeSingle (users_by_email (value (Body.email b)) d))) ;;
    match found with
    | Failure fetchError => ret (unexpected_catch fetchError)
    | Data None => ret (Sent invalid_credentials)
    | Data (Some u) =>
        let isPasswordMatch :=
          bcrypt_compare (value (Body.password b)) (User.password u) in
        if negb isPasswordMatch then ret (Sent invalid_credentials)
        else
          t <- dateNow ;;
          match JwtLib.sign (mkAuthUser (User.id u) (User.email u))
                  (JWT_SECRET env) JwtLib.expiresIn_1h (t / 1000) with
          | inl error => ret (unexpected_catch error)
          | inr token =>
              ret (Sent (mkResponse 200
                           (JObj [("success", JBool true);
                                  ("token", JStr token)])))
          end
    end.

(** *** routes/dashboard.ts *)

Definition meHandler (req : AuthRequest) : M Outcome :=
  found <- store_call Users Select
    (reading (fun d => maybeSingle (users_by_id (userId (user req)) d))) ;;
  match found with
  | Data (Some u) =>
      ret (Sent (mkResponse 200
                   (JObj [("success", JBool true);
                          ("user", user_public_json u)])))
  | _ => ret (Sent (message_response 404 "User not found"))
  end.

(** *** routes/tenders.ts *)

Definition createTenderHandler (req : AuthRequest) : M Outcome :=
  let b := Req.body (request req) in
  if negb (Js.truthy_str (Body.title b))
     || negb (Js.truthy_str (Body.description b))
     || negb (Js.truthy_num (Body.budget b))
     || negb (Js.truthy_str (Body.deadline b))
  then ret (Sent (message_response 400 "All fields are required"))
  else
    let creator_id := userId (user req) in
    t <- dateNow ;;
    inserted <- store_call Tenders Insert
      (insert_tender t (value (Body.title b)) (value (Body.description b))
         (number (Body.budget b)) (value (Body.deadline b)) creator_id) ;;
    match inserted with
    | Failure err =>
        ret (Sent (error_response 500 "ServerError" (message err)))
    | Data _ =>
        ret (Sent (mkResponse 201
                     (JObj [("success", JBool true);
                            ("message", JStr "Tender created")])))
    end.

(** GET /my *)
Definition myTendersHandler (req : AuthRequest) : M Outcome :=
  let userId := userId (user req) in
  selected <- store_call Tenders Select
    (reading (fun d => Data (tenders_of userId d))) ;;
  match selected with
  | Failure err => ret (Sent (error_response 500 "ServerError" (message err)))
  | Data data =>
      ret (Sent (mkResponse 200
                   (JObj [("success", JBool true);
                          ("tenders", JArr (map tender_json data))])))
  end.

(** GET /others *)
Definition othersTendersHandler (req : AuthRequest) : M Outcome :=
  let userId := userId (user req) in
  selected <- store_call Tenders Select
    (reading (fun d => Data (tenders_not_of userId d))) ;;
  match selected with
  | Failure error => ret (Sent (message_response 500 (message error)))
  | Data data =>
      ret (Sent (mkResponse 200
                   (JObj [("tenders", JArr (map tender_json data))])))
  end.

(** POST /:id/apply *)
Definition applyHandler (req : AuthRequest) : M Outcome :=
  let applicant_id := userId (user req) in
  let tender_id := Req.params_id (request req) in
  let proposal_text := Body.proposal_text (Req.body (request req)) in
  if negb (Js.truthy_str proposal_text)
     || negb (Js.truthy_str (Some tender_id))
     || negb (Js.truthy_str (Some applicant_id))
  then ret (Sent (message_response 400 "Missing required fields"))
  else
    t <- dateNow ;;
    inserted <- store_call Applications Insert
      (insert_application t tender_id applicant_id (value proposal_text)) ;;
    match inserted with
    | Failure error => ret (Sent (message_response 500 (message error)))
    | Data _ =>
        ret (Sent (message_response 201 "Application submitted successfully"))
    end.

(** GET /:id/applications *)
Definition listApplicationsHandler (req : AuthRequest) : M Outcome :=
  let tender_id := Req.params_id (request req) in
  let requester_id := userId (user req) in
  owner <- store_call Tenders Select
    (reading (fun d => maybeSingle (tenders_by_id tender_id d))) ;;
  match owner with
  | Failure _ | Data None =>
      ret (Sent (message_response 403 "Tender not found or unauthorized"))
  | Data (Some tender) =>
      if negb (String.eqb (Tender.creator_id tender) requester_id)
      then ret (Sent (message_response 403 "Access denied"))
      else
        selected <- store_call Applications Select
          (reading (fun d => Data (applications_of_tender tender_id d))) ;;
        match selected with
        | Failure error => ret (Sent (message_response 500 (message error)))
        | Data applications =>
            ret (Sent (mkResponse 200
                         (JObj [("applications",
                                 JArr (map application_json applications))])))
        end
  end.

(** [['accepted', 'rejected'].includes(status)] *)
Definition valid_status (st : option Json) : option string :=
  match st with
  | Some (JStr s) =>
      if String.eqb s "accepted" || String.eqb s "rejected"
      then Some s else None
  | _ => None
  end.

(** PATCH /applications/:id/status *)
Definition updateStatusHandler (req : AuthRequest) : M Outcome :=
  let appId := Req.params_id (request req) in
  let userId := userId (user req) in
  match valid_status (Body.status (Req.body (request req))) with
  | None => ret (Sent (message_response 400 "Invalid status"))
  | Some st =>
      fetched <- store_call Applications Select
        (reading (fun d => maybeSingle (applications_by_id appId d))) ;;
      match fetched with
      | Failure _ | Data None =>
          ret (Sent (message_response 404 "Application not found"))
      | Data (Some appRecord) =>
          owner <- store_call Tenders Select
            (reading (fun d =>
               maybeSingle
                 (tenders_by_id (Application.tender_id appRecord) d))) ;;
          match owner with
          | Failure _ | Data None =>
              ret (Sent (message_response 403 "Unauthorized"))
          | Data (Some tender) =>
              if negb (String.eqb (Tender.creator_id tender) userId)
              then ret (Sent (message_response 403 "Unauthorized"))
              else
                updated <- store_call Applications Update
                  (update_status appId st) ;;
                match updated with
                | Failure updateError =>
                    ret (Sent (message_response 500 (message updateError)))
                | Data _ =>
                    ret (Sent (mkResponse 200
                                 (JObj [("success", JBool true);
                                        ("message",
                                         JStr ("Application " ++ st)%string)])))
                end
          end
      end
  end.

(** The [tenders(title, deadline)] member of a joined application row. *)
Definition joined_tender (d : Db) (a : Application.t) : Json :=
  match tenders_by_id (Application.tender_id a) d with
  | t :: _ =>
      JObj [("title", JStr (Tender.title t));
            ("deadline", JStr (Tender.deadline t))]
  | [] => JNull
  end.

Definition my_application_json (d : Db) (a : Application.t) : Json :=
  JObj [("id", JStr (Application.id a));
        ("proposal_text", JStr (Application.proposal_text a));
        ("status", status_json (Application.status a));
        ("created_at", JInt (Application.created_at a));
        ("tender_id", JStr (Application.tender_id a));
        ("tenders", joined_tender d a)].

(** GET /my-applications *)
Definition myApplicationsHandler (req : AuthRequest) : M Outcome :=
  let applicant_id := userId (user req) in
  selected <- store_call Applications Select
    (reading (fun d =>
       Data (map (my_application_json d)
               (applications_of_applicant applicant_id d)))) ;;
  match selected with
  | Failure error => ret (Sent (message_response 500 (message error)))
  | Data data => ret (Sent (mkResponse 200 (JObj [("applications", JArr data)])))
  end.

Definition tender_with_applications_json (d : Db) (t : Tender.t) : Json :=
  JObj [("id", JStr (Tender.id t)); ("title", JStr (Tender.title t));
        ("description", JStr (Tender.description t));
        ("deadline", JStr (Tender.deadline t));
        ("budget", JNum (Tender.budget t));
        ("applications",
         JArr (map application_nested_json
                 (filter (fun a =>
                    String.eqb (Application.tender_id a) (Tender.id t))
                    (applications d))))].

(** GET /my-with-applications *)
Definition myWithApplicationsHandler (req : AuthRequest) : M Outcome :=
  let userId := userId (user req) in
  selected <- store_call Tenders Select
    (reading (fun d =>
       Data (map (tender_with_applications_json d) (tenders_of userId d)))) ;;
  match selected with
  | Failure error => ret (Sent (message_response 500 (message error)))
  | Data data => ret (Sent (mkResponse 200 (JObj [("tenders", JArr data)])))
  end.

(** The store side of the search:
    [.neq('creator_id', userId)
     .or(`title.ilike.%${query}%,description.ilike.%${query}%`)
     .order('created_at', { ascending: false })] *)
Definition search_candidates (userId query : string) (d : Db)
  : list SearchRow.t :=
  let pattern := ("%" ++ query ++ "%")%string in
  map SearchRow.of_tender
    (order_desc Tender.created_at
       (filter (fun t =>
          negb (String.eqb (Tender.creator_id t) userId)
          && (ilike (Tender.title t) pattern
              || ilike (Tender.description t) pattern))
          (tenders d))).

(** [v?.toLowerCase().includes(query)], with [undefined] read as false. *)
Definition opt_includes (v : option string) (query : string) : bool :=
  match v with
  | Some s => Js.includes (toLowerCase s) query
  | None => false
  end.

(** The in-process filter of the search. *)
Definition search_filter (query : string) (tender : SearchRow.t) : bool :=
  Js.includes (toLowerCase (SearchRow.title tender)) query
  || Js.includes (toLowerCase (SearchRow.description tender)) query
  || match SearchRow.users tender with
     | Some o => opt_includes (Owner.industry o) query
     | None => false
     end
  || match SearchRow.users tender with
     | Some o => opt_includes (Owner.company_name o) query
     | None => false
     end.

(** GET /search *)
Definition searchHandler (req : AuthRequest) : M Outcome :=
  let query := option_map toLowerCase (Req.query_q (request req)) in
  let userId := userId (user req) in
  if negb (Js.truthy_str query)
  then ret (Sent (message_response 400 "Search query is required"))
  else
    selected <- store_call Tenders Select
      (reading (fun d => Data (search_candidates userId (value query) d))) ;;
    match selected with
    | Failure error => ret (Sent (message_response 500 (message error)))
    | Data data =>
        let filtered := filter (search_filter (value query)) data in
        ret (Sent (mkResponse 200
                     (JObj [("tenders", JArr (map SearchRow.json filtered))])))
    end.

(** *** The router *)

Inductive Endpoint : Type :=
| PostSignup | PostLogin | GetMe
| PostTender | GetMyTenders | GetOthersTenders | PostApply
| GetApplications | PatchStatus | GetMyApplications
| GetMyWithApplications | GetSearch.

(** How a route is registered: the handler alone, or [verifyJWT] and then
    the handler. *)
Inductive Registration : Type :=
| Public (h : Req.t -> M Outcome)
| Protected (h : AuthRequest -> M Outcome).

Definition registered (e : Endpoint) : Registration :=
  match e with
  | PostSignup => Public signupHandler
  | PostLogin => Public loginHandler
  | GetMe => Protected meHandler
  | PostTender => Protected createTenderHandler
  | GetMyTenders => Protected myTendersHandler
  | GetOthersTenders => Protected othersTendersHandler
  | PostApply => Protected applyHandler
  | GetApplications => Protected listApplicationsHandler
  | PatchStatus => Protected updateStatusHandler
  | GetMyApplications => Protected myApplicationsHandler
  | GetMyWithApplications => Protected myWithApplicationsHandler
  | GetSearch => Protected searchHandler
  end.

Definition protected (e : Endpoint) : bool :=
  match registered e with
  | Public _ => false
  | Protected _ => true
  end.

(** Serving a request on a route. *)
Definition route (e : Endpoint) (req : Req.t) : M Outcome :=
  match registered e with
  | Public h => h req
  | Protected h => verifyJWT req h
  end.

End Routes.

(** ** Properties of a run *)

(** No outage is due for the next [n] store calls. *)
Definition calm (n : nat) (w : World) : bool :=
  forallb (fun f => match f with None => true | Some _ => false end)
    (firstn n (faults w)).

(** The store calls made between two worlds of one run. *)
Definition new_calls (before after : World) : list Call :=
  firstn (length (log after) - length (log before)) (log after).

(** Every stored e-mail address belongs to one user. *)
Definition unique_emails (d : Db) : Prop := NoDup (map User.email (users d)).

(** Rows by decreasing [created_at]. *)
Definition newest_first {A} (key : A -> Z) (rows : list A) : Prop :=
  StronglySorted (fun a b => key b <= key a) rows.

(** The six members signup requires. *)
Definition signup_fields (b : Body.t) : list (option string) :=
  [Body.name b; Body.email b; Body.password b; Body.company_name b;
   Body.industry b; Body.industry_description b].

(** Whether a character occurs in a string. *)
Fixpoint contains_char (c : ascii) (s : string) : bool :=
  match s with
  | EmptyString => false
  | String d rest => Ascii.eqb d c || contains_char c rest
  end.

(** The columns of an application that no route rewrites. *)
Definition frozen (a : Application.t)
  : string * string * string * string * Z :=
  (Application.id a, Application.tender_id a, Application.applicant_id a,
   Application.proposal_text a, Application.created_at a).

(** A table that kept its rows, in place, and gained rows at its end. *)
Definition extends {A} (old new : list A) : Prop :=
  exists added, new = old ++ added.

(** Tables that only grew: users and tenders kept as they were, the
    applications kept but for their [status], the uploaded files kept. *)
Definition grows (d d' : Db) : Prop :=
  extends (users d) (users d')
  /\ extends (tenders d) (tenders d')
  /\ extends (map frozen (applications d)) (map frozen (applications d'))
  /\ exists added, logos d' = added ++ logos d.

(** What a run from [w] to [w'] with outcome [o] respects: the tables only
    grew, at most three store calls were made, only the latest of them can
    have failed, and a 400 was answered with the world untouched. *)
Definition orderly (w : World) (o : Outcome) (w' : World) : Prop :=
  grows (db w) (db w')
  /\ (length (new_calls w w') <= 3)%nat
  /\ (forall c, In c (tl (new_calls w w')) -> succeeded c = true)
  /\ (sent_status o = Some 400 -> w' = w).

(** The routes that only read the store. *)
Definition reads_only (e : Endpoint) : bool :=
  match e with
  | PostSignup | PostTender | PostApply | PatchStatus => false
  | _ => true
  end.


(** The same collaborators with another password hash. *)
Definition with_hash (h : string -> string) (ext : External) : External :=
  {| toLowerCase := toLowerCase;
     jwt_encode := jwt_encode; jwt_decode := jwt_decode; hmac := hmac;
     bcrypt_hash := h; bcrypt_compare := bcrypt_compare; ilike := ilike;
     publicUrl := publicUrl |}.

(** The members of the user object signup returns. *)
Definition public_fields : list string :=
  ["id"; "name"; "email"; "company_name"; "industry"; "industry_description";
   "logo"].


(** ** A concrete instance of the collaborators

    Simple stand-ins for the libraries, used to run the routes on concrete
    requests: a self-delimiting text serialisation of tokens, a keyed tag,
    a salted-prefix password hash, lower-casing of ASCII text and an SQL
    [LIKE] matcher. *)

Module Fixture.

Fixpoint put_string (s rest : string) : string :=
  match s with
  | EmptyString => String "0" rest
  | String c s' => String "1" (String c (put_string s' rest))
  end.

Fixpoint get_string (s : string) : option (string * string) :=
  match s with
  | String "0" rest => Some (EmptyString, rest)
  | String "1" (String c rest) =>
      match get_string rest with
      | Some (x, r) => Some (String c x, r)
      | None => None
      end
  | _ => None
  end.

Fixpoint put_pos (p : positive) (rest : string) : string :=
  match p with
  | xH => String "H" rest
  | xO p' => String "O" (put_pos p' rest)
  | xI p' => String "I" (put_pos p' rest)
  end.

Fixpoint get_pos (s : string) : option (positive * string) :=
  match s with
  | String "H" rest => Some (xH, rest)
  | String "O" rest =>
      match get_pos rest with
      | Some (p, r) => Some (xO p, r)
      | None => None
      end
  | String "I" rest =>
      match get_pos rest with
      | Some (p, r) => Some (xI p, r)
      | None => None
      end
  | _ => None
  end.

Definition put_Z (z : Z) (rest : string) : string :=
  match z with
  | Z0 => String "Z" rest
  | Zpos p => String "P" (put_pos p rest)
  | Zneg p => String "N" (put_pos p rest)
  end.

Definition get_Z (s : string) : option (Z * string) :=
  match s with
  | String "Z" rest => Some (0, rest)
  | String "P" rest =>
      match get_pos rest with
      | Some (p, r) => Some (Zpos p, r)
      | None => None
      end
  | String "N" rest =>
      match get_pos rest with
      | Some (p, r) => Some (Zneg p, r)
      | None => None
      end
  | _ => None
  end.

Definition put_claims (c : Jwt.Claims) (rest : string) : string :=
  put_string (userId (Jwt.sub c))
    (put_string (email (Jwt.sub c))
       (put_Z (Jwt.iat c) (put_Z (Jwt.exp c) rest))).

Definition encode (t : Jwt.Token) : string :=
  put_claims (Jwt.claims t) (put_string (Jwt.signature t) EmptyString).

Definition decode (s : string) : option Jwt.Token :=
  match get_string s with
  | Some (uid, s1) =>
      match get_string s1 with
      | Some (mail, s2) =>
          match get_Z s2 with
          | Some (i, s3) =>
              match get_Z s3 with
              | Some (e, s4) =>
                  match get_string s4 with
                  | Some (sig, EmptyString) =>
                      Some (Jwt.mkToken
                              (Jwt.mkClaims (mkAuthUser uid mail) i e) sig)
                  | _ => None
                  end
              | None => None
              end
          | None => None
          end
      | None => None
      end
  | None => None
  end.

Definition tag (secret : string) (c : Jwt.Claims) : string :=
  put_string secret (put_claims c EmptyString).

Definition hash (password : string) : string :=
  ("$2a$10$" ++ password)%string.

Definition compare (password hashed : string) : bool :=
  String.eqb (hash password) hashed.

(** SQL [LIKE]: [%] stands for any run of characters, [_] for any one
    character, and a backslash takes the next character literally. *)
Fixpoint like (pattern : string) : string -> bool :=
  match pattern with
  | EmptyString => fun text => String.eqb text EmptyString
  | String "%" p =>
      fix star (text : string) : bool :=
        like p text
        || match text with
           | EmptyString => false
           | String _ text' => star text'
           end
  | String "_" p =>
      fun text =>
        match text with
        | EmptyString => false
        | String _ text' => like p text'
        end
  | String "\" (String c p) =>
      fun text =>
        match text with
        | EmptyString => false
        | String d text' => Ascii.eqb c d && like p text'
        end
  | String c p =>
      fun text =>
        match text with
        | EmptyString => false
        | String d text' => Ascii.eqb c d && like p text'
        end
  end.

(** Lower-casing of the letters A to Z, which is what [toLowerCase] does to
    a text of ASCII characters; the requests run below hold no others. *)
Definition lower_ascii (c : ascii) : ascii :=
  let n := nat_of_ascii c in
  if (Nat.leb 65 n && Nat.leb n 90)%bool then ascii_of_nat (n + 32) else c.

Fixpoint lower (s : string) : string :=
  match s with
  | EmptyString => EmptyString
  | String c rest => String (lower_ascii c) (lower rest)
  end.

Definition ilike (text pattern : string) : bool :=
  like (lower pattern) (lower text).

Definition url (path : string) : string :=
  ("https://storage.example/" ++ path)%string.

#[local] Instance collaborators : External := {
  toLowerCase := lower;
  jwt_encode := encode;
  jwt_decode := decode;
  hmac := tag;
  bcrypt_hash := hash;
  bcrypt_compare := compare;
  ilike := ilike;
  publicUrl := url
}.

Definition env : Env := mkEnv "s3cret" (Some "development").

Definition quiet (d : Db) (t : Z) : World := mkWorld d t [] [].

Definition failing (d : Db) (t : Z) (e : JsError) : World :=
  mkWorld d t [Some e] [].

Definition outage : JsError := mkJsError "fetch failed" false.

Definition alice : User.t :=
  User.mk "u1" "Alice" "alice@acme.test" (hash "wonderland") "Acme" "Roofing"
    "Roofs and gutters" EmptyString.

Definition bob : User.t :=
  User.mk "u2" "Bob" "bob@bricks.test" (hash "builder") "Bricks" "Masonry"
    "Walls" EmptyString.

Definition roof : Tender.t :=
  Tender.mk "t1" "Roof repair" "Fix the ROOF of hall 3" (5000 # 1)
    "2025-09-01" "u1" 100.

Definition paint : Tender.t :=
  Tender.mk "t2" "Painting" "Paint the fence" (700 # 1) "2025-10-01" "u1" 200.

Definition wall : Tender.t :=
  Tender.mk "t3" "Garden wall" "Bricks under the roofline" (900 # 1)
    "2025-11-01" "u2" 300.

Definition proposal : Application.t :=
  Application.mk "a1" "t1" "u2" "P1" None 400.

Definition market : Db :=
  mkDb [alice; bob] [roof; paint; wall] [proposal] [] 10.

Definition empty_db : Db := mkDb [] [] [] [] 0.



Definition as_user (u : User.t) (r : Req.t) : AuthRequest :=
  mkAuthRequest (mkAuthUser (User.id u) (User.email u)) r.

Definition get (id : string) (q : option string) : Req.t :=
  Req.mk None id q Body.empty None.

Definition with_status (id : string) (st : option Json) : Req.t :=
  Req.mk None id None
    (Body.mk None None None None None None None None None None None st) None.

Definition login_body (mail pw : string) : Req.t :=
  Req.mk None EmptyString None
    (Body.mk None (Some mail) (Some pw) None None None None None None None
       None None) None.

Definition signup_body (nm mail pw : option string) : Req.t :=
  Req.mk None EmptyString None
    (Body.mk nm mail pw (Some "Cranes Ltd") (Some "Lifting")
       (Some "Cranes for hire") None None None None None None) None.

Definition tender_body (b : Q) : Req.t :=
  Req.mk None EmptyString None
    (Body.mk None None None None None None (Some "Bridge") (Some "A bridge")
       (Some b) (Some "2026-01-01") None None) None.

Definition bearer (token : string) : Req.t :=
  Req.mk (Some ("Bearer " ++ token)%string) EmptyString None Body.empty None.

Definition with_logo (r : Req.t) (f : UploadedFile) : Req.t :=
  Req.mk (Req.authorization r) (Req.params_id r) (Req.query_q r) (Req.body r)
    (Some f).

Definition crane_logo : UploadedFile :=
  mkUploadedFile "crane.final.png" "image/png" "PNG".

Definition apply_body (id : string) (proposal : option string) : Req.t :=
  Req.mk None id None
    (Body.mk None None None None None None None None None None proposal None)
    None.

Definition with_bearer (token : string) (r : Req.t) : Req.t :=
  Req.mk (Some ("Bearer " ++ token)%string) (Req.params_id r) (Req.query_q r)
    (Req.body r) (Req.file r).

(** The token a login of Alice gets when the clock reads 0. *)
Definition alice_token : string :=
  JwtLib.signed (ext := collaborators) (mkAuthUser "u1" "alice@acme.test")
    "s3cret" JwtLib.expiresIn_1h 0.

End Fixture.

(** * Verification *)

(** ** The store monad *)

Lemma store_call_fault {A} (t : Table) (o : Op) (q : Db -> PgResult A * Db)
  (w : World) (e : JsError) (later : list (option JsError)) :
  faults w = Some e :: later ->
  store_call t o q w
  = (Failure e, mkWorld (db w) (now w) later (mkCall t o false :: log w)).
Proof.
  intros H. unfold store_call. rewrite H. reflexivity.
Qed.

Lemma store_call_calm {A} (t : Table) (o : Op) (q : Db -> PgResult A * Db)
  (w : World) (n : nat) :
  calm (S n) w = true ->
  store_call t o q w
  = (fst (q (db w)),
     mkWorld (snd (q (db w))) (now w) (tl (faults w))
       (mkCall t o (is_data (fst (q (db w)))) :: log w)).
Proof.
  unfold calm, store_call. destruct (faults w) as [|[e|] fs]; simpl.
  - intros _. destruct (q (db w)); reflexivity.
  - discriminate.
  - intros _. destruct (q (db w)); reflexivity.
Qed.

Lemma calm_next (n : nat) (w : World) (d : Db) (l : list Call) :
  calm (S n) w = true -> calm n (mkWorld d (now w) (tl (faults w)) l) = true.
Proof.
  unfold calm. simpl. destruct (faults w) as [|[e|] fs]; simpl.
  - intros _. destruct n; reflexivity.
  - discriminate.
  - trivial.
Qed.

(** ** Ordering by [created_at] *)

Section Ordering.
Context {A : Type} (key : A -> Z).

Lemma insert_desc_perm (x : A) (rows : list A) :
  Permutation (insert_desc key x rows) (x :: rows).
Proof.
  induction rows as [|y rest IH]; simpl.
  - apply Permutation_refl.
  - destruct (key y <? key x).
    + apply Permutation_refl.
    + apply perm_trans with (y :: x :: rest).
      * apply perm_skip, IH.
      * apply perm_swap.
Qed.

Lemma order_desc_perm (rows : list A) : Permutation (order_desc key rows) rows.
Proof.
  induction rows as [|x rest IH]; simpl.
  - apply perm_nil.
  - apply perm_trans with (x :: order_desc key rest).
    + apply insert_desc_perm.
    + apply perm_skip, IH.
Qed.

Lemma insert_desc_sorted (x : A) (rows : list A) :
  newest_first key rows -> newest_first key (insert_desc key x rows).
Proof.
  unfold newest_first. induction 1 as [|y rest Hs IH Hall]; simpl.
  - constructor; constructor.
  - destruct (key y <? key x) eqn:E.
    + apply Z.ltb_lt in E. constructor.
      * constructor; assumption.
      * constructor; [lia|].
        eapply Forall_impl; [|exact Hall]. simpl. intros; lia.
    + apply Z.ltb_ge in E. constructor; [exact IH|].
      eapply Permutation_Forall.
      * apply Permutation_sym, insert_desc_perm.
      * constructor; assumption.
Qed.

Lemma order_desc_sorted (rows : list A) :
  newest_first key (order_desc key rows).
Proof.
  induction rows as [|x rest IH]; simpl.
  - constructor.
  - apply insert_desc_sorted, IH.
Qed.

Lemma order_desc_In (x : A) (rows : list A) :
  In x (order_desc key rows) <-> In x rows.
Proof.
  split; apply Permutation_in.
  - apply order_desc_perm.
  - apply Permutation_sym, order_desc_perm.
Qed.

End Ordering.





(** ** JavaScript strings *)

Lemma startsWith_truthy (s p : string) :
  p <> EmptyString -> Js.startsWith s p = true -> Js.truthy_str (Some s) = true.
Proof.
  intros Hp H. destruct s; simpl.
  - destruct p; [contradiction Hp; reflexivity | discriminate H].
  - reflexivity.
Qed.


Lemma truthy_value (v : option string) :
  Js.truthy_str v = true -> v = Some (value v) /\ value v <> EmptyString.
Proof.
  destruct v as [s|]; simpl; [|discriminate].
  intros H. split; [reflexivity|]. intros E. rewrite E in H. discriminate.
Qed.

(** ** The token service *)

Section TokenService.
Context {ext : External}.

Lemma verify_signed (u : AuthUser) (secret : string) (T t : Z) :
  (forall tk, jwt_decode (jwt_encode tk) = Some tk) ->
  secret <> EmptyString ->
  JwtLib.verify (Some (JwtLib.signed u secret JwtLib.expiresIn_1h T)) secret t
  = if t >=? T + 3600 then Jwt.Thrown Jwt.TokenExpired else Jwt.Decoded u.
Proof.
  intros Hcodec Hsecret. unfold JwtLib.verify, JwtLib.signed.
  rewrite Hcodec. apply String.eqb_neq in Hsecret. rewrite Hsecret. simpl.
  rewrite String.eqb_refl. simpl. reflexivity.
Qed.

(** A token signed under another secret, whose signature differs, is
    rejected whatever the clock reads. *)
Lemma verify_rejects_foreign_signature (u : AuthUser) (secret forged : string)
  (T t : Z) :
  (forall tk, jwt_decode (jwt_encode tk) = Some tk) ->
  hmac secret (Jwt.mkClaims u T (T + JwtLib.expiresIn_1h))
  <> hmac forged (Jwt.mkClaims u T (T + JwtLib.expiresIn_1h)) ->
  exists err,
    JwtLib.verify (Some (JwtLib.signed u forged JwtLib.expiresIn_1h T)) secret
      t = Jwt.Thrown err.
Proof.
  intros Hcodec Hsig. unfold JwtLib.verify, JwtLib.signed. rewrite Hcodec.
  cbn [Jwt.claims Jwt.signature].
  destruct (String.eqb secret EmptyString); [eexists; reflexivity|].
  destruct (String.eqb_spec
              (hmac secret (Jwt.mkClaims u T (T + JwtLib.expiresIn_1h)))
              (hmac forged (Jwt.mkClaims u T (T + JwtLib.expiresIn_1h))))
    as [E|_]; [contradiction | eexists; reflexivity].
Qed.

(** [jwt.sign] returns a token exactly when it is given a secret. *)
Lemma sign_returns (u : AuthUser) (secret : string) (T : Z) (token : string) :
  JwtLib.sign u secret JwtLib.expiresIn_1h T = inr token ->
  secret <> EmptyString
  /\ token = JwtLib.signed u secret JwtLib.expiresIn_1h T.
Proof.
  unfold JwtLib.sign. destruct (String.eqb_spec secret EmptyString) as [E|N].
  - discriminate.
  - intros H. injection H as <-. split; [exact N | reflexivity].
Qed.

Lemma sign_with_secret (u : AuthUser) (secret : string) (T : Z) :
  secret <> EmptyString ->
  JwtLib.sign u secret JwtLib.expiresIn_1h T
  = inr (JwtLib.signed u secret JwtLib.expiresIn_1h T).
Proof.
  intros N. unfold JwtLib.sign. apply String.eqb_neq in N. rewrite N.
  reflexivity.
Qed.

End TokenService.

(** ** The gateway *)

Section Gateway.
Context {ext : External}.
Variable env : Env.

Lemma verifyJWT_missing (req : Req.t) (next : AuthRequest -> M Outcome)
  (w : World) :
  (Req.authorization req = None
   \/ exists s, Req.authorization req = Some s
                /\ Js.startsWith s "Bearer " = false) ->
  verifyJWT env req next w = (Sent (message_response 401 "Missing token"), w).
Proof.
  unfold verifyJWT. intros [H | [s [H Hs]]]; rewrite H; simpl.
  - reflexivity.
  - rewrite Hs. rewrite orb_true_r. reflexivity.
Qed.

Lemma verifyJWT_checks (req : Req.t) (next : AuthRequest -> M Outcome)
  (w : World) (s : string) :
  Req.authorization req = Some s ->
  Js.startsWith s "Bearer " = true ->
  verifyJWT env req next w
  = match JwtLib.verify (nth_error (Js.split " " s) 1) (JWT_SECRET env)
            (now w / 1000) with
    | Jwt.Decoded decoded => next (mkAuthRequest decoded req) w
    | Jwt.Thrown _ =>
        (Sent (message_response 403 "Invalid or expired token"), w)
    end.
Proof.
  intros H Hs. unfold verifyJWT. cbv zeta. rewrite H.
  rewrite (startsWith_truthy s "Bearer ") by (discriminate || exact Hs).
  cbn [value]. rewrite Hs. cbn [negb orb].
  unfold bind, dateNow, ret.
  destruct (JwtLib.verify _ _ _); reflexivity.
Qed.

(** C2. Every protected route is its handler behind [verifyJWT].  Whatever
    the handler is: without an [Authorization] header, or with one that does
    not start with ['Bearer '], the answer is 401 and the handler is not
    run; with the prefix and a token that fails verification the answer is
    403 and the handler is not run; with a token that verifies, the handler
    runs on the request annotated with the decoded [{userId, email}]. *)
Theorem protected_routes_are_gated (e : Endpoint) :
  protected env e = true ->
  exists h,
    registered env e = Protected h
    /\ (forall req, route env e req = verifyJWT env req h)
    /\ forall (next : AuthRequest -> M Outcome) req w,
        ((Req.authorization req = None
          \/ exists s, Req.authorization req = Some s
                       /\ Js.startsWith s "Bearer " = false) ->
         verifyJWT env req next w
         = (Sent (message_response 401 "Missing token"), w))
        /\ (forall s err,
              Req.authorization req = Some s ->
              Js.startsWith s "Bearer " = true ->
              JwtLib.verify (nth_error (Js.split " " s) 1) (JWT_SECRET env)
                (now w / 1000) = Jwt.Thrown err ->
              verifyJWT env req next w
              = (Sent (message_response 403 "Invalid or expired token"), w))
        /\ (forall s decoded,
              Req.authorization req = Some s ->
              Js.startsWith s "Bearer " = true ->
              JwtLib.verify (nth_error (Js.split " " s) 1) (JWT_SECRET env)
                (now w / 1000) = Jwt.Decoded decoded ->
              verifyJWT env req next w
              = next (mkAuthRequest decoded req) w).
Proof.
  intros Hp.
  assert (exists h, registered env e = Protected h) as [h Hh]
    by (unfold protected in Hp; destruct (registered env e) as [h|h];
        [discriminate | exists h; reflexivity]).
  exists h. split; [exact Hh|]. split.
  - intros req. unfold route. rewrite Hh. reflexivity.
  - intros next req w. split; [apply verifyJWT_missing|]. split.
    + intros s err H Hs Hv. rewrite (verifyJWT_checks req next w s H Hs).
      rewrite Hv. reflexivity.
    + intros s decoded H Hs Hv. rewrite (verifyJWT_checks req next w s H Hs).
      rewrite Hv. reflexivity.
Qed.

End Gateway.

(** ** Validation before the store *)

(** C10. Create Tender answers 400 'All fields are required' to a request
    whose [budget] is the number 0, whatever the other fields are, and
    neither inserts a row nor calls the store. *)
Theorem createTender_rejects_zero_budget (req : AuthRequest) (w : World)
  (b : Q) :
  Body.budget (Req.body (request req)) = Some b ->
  (b == 0)%Q ->
  createTenderHandler req w
  = (Sent (message_response 400 "All fields are required"), w).
Proof.
  intros Hb Hz. unfold createTenderHandler. cbv zeta. rewrite Hb.
  assert (Js.truthy_num (Some b) = false) as E.
  { unfold Js.truthy_num. unfold Qeq in Hz. simpl in Hz.
    replace (Qnum b) with 0 by lia. reflexivity. }
  rewrite E. cbn [negb].
  rewrite orb_true_r. reflexivity.
Qed.

Lemma valid_status_none (st : option Json) :
  st <> Some (JStr "accepted") -> st <> Some (JStr "rejected") ->
  valid_status st = None.
Proof.
  intros Ha Hr. destruct st as [[| | | |s| |]|]; simpl; try reflexivity.
  destruct (String.eqb_spec s "accepted") as [->|_];
    [contradiction Ha; reflexivity|].
  destruct (String.eqb_spec s "rejected") as [->|_];
    [contradiction Hr; reflexivity|].
  reflexivity.
Qed.

Lemma valid_status_some (st : option Json) (s : string) :
  valid_status st = Some s ->
  st = Some (JStr s) /\ (s = "accepted" \/ s = "rejected").
Proof.
  destruct st as [[| | | |x| |]|]; simpl; try discriminate.
  destruct (String.eqb_spec x "accepted") as [->|_]; simpl.
  - intros E; injection E as <-. auto.
  - destruct (String.eqb_spec x "rejected") as [->|_]; [|discriminate].
    intros E; injection E as <-. auto.
Qed.

(** C5. A status update whose [status] is neither 'accepted' nor 'rejected'
    (any other JSON value, or no value) is answered 400 'Invalid status'
    with the world as it was: no store call is logged and no table, in
    particular no application, has changed. *)
Theorem invalid_status_rejected_before_the_store (req : AuthRequest)
  (w : World) :
  Body.status (Req.body (request req)) <> Some (JStr "accepted") ->
  Body.status (Req.body (request req)) <> Some (JStr "rejected") ->
  updateStatusHandler req w = (Sent (message_response 400 "Invalid status"), w)
  /\ new_calls w (snd (updateStatusHandler req w)) = []
  /\ applications (db (snd (updateStatusHandler req w))) = applications (db w).
Proof.
  intros Ha Hr.
  assert (updateStatusHandler req w
          = (Sent (message_response 400 "Invalid status"), w)) as E.
  { unfold updateStatusHandler. cbv zeta.
    rewrite (valid_status_none _ Ha Hr). reflexivity. }
  rewrite E. simpl. unfold new_calls. rewrite Nat.sub_diag.
  repeat split; reflexivity.
Qed.

(** ** Users and their e-mail addresses *)

Lemma users_by_email_absent (e : string) (d : Db) :
  (forall u, In u (users d) -> User.email u <> e) -> users_by_email e d = [].
Proof.
  unfold users_by_email. induction (users d) as [|x l IH]; simpl; intros H.
  - reflexivity.
  - destruct (String.eqb_spec (User.email x) e) as [E|_].
    + exfalso. apply (H x); [left; reflexivity | exact E].
    + apply IH. intros u Hu. apply H. right. exact Hu.
Qed.

Lemma users_by_email_unique (u : User.t) (d : Db) :
  unique_emails d -> In u (users d) -> users_by_email (User.email u) d = [u].
Proof.
  unfold unique_emails, users_by_email.
  induction (users d) as [|x l IH]; simpl; intros Hn Hin; [contradiction|].
  inversion Hn as [|? ? Hx Hl]; subst.
  destruct Hin as [->|Hin].
  - rewrite String.eqb_refl. f_equal.
    clear IH Hn Hl. induction l as [|y l IH]; simpl; [reflexivity|].
    destruct (String.eqb_spec (User.email y) (User.email u)) as [E|_].
    + exfalso. apply Hx. simpl. left. exact E.
    + apply IH. intros H. apply Hx. simpl. right. exact H.
  - destruct (String.eqb_spec (User.email x) (User.email u)) as [E|_].
    + exfalso. apply Hx. rewrite E. apply in_map. exact Hin.
    + apply IH; assumption.
Qed.

Lemma users_by_email_sound (e : string) (d : Db) (u : User.t) :
  In u (users_by_email e d) -> In u (users d) /\ User.email u = e.
Proof.
  unfold users_by_email. intros H. apply filter_In in H as [H1 H2].
  split; [exact H1|]. apply String.eqb_eq. exact H2.
Qed.

(** ** Login *)

Section Login.
Context {ext : External}.
Variable env : Env.

Lemma login_unknown_email (req : Req.t) (w : World) :
  Js.truthy_str (Body.email (Req.body req)) = true ->
  Js.truthy_str (Body.password (Req.body req)) = true ->
  calm 1 w = true ->
  (forall u, In u (users (db w)) ->
             User.email u <> value (Body.email (Req.body req))) ->
  fst (loginHandler env req w) = Sent invalid_credentials.
Proof.
  intros He Hp Hc Habs. unfold loginHandler. cbv zeta.
  rewrite He, Hp. cbn [negb orb]. unfold bind.
  rewrite (store_call_calm _ _ _ _ 0 Hc). unfold reading. cbn [fst snd].
  rewrite (users_by_email_absent _ _ Habs). reflexivity.
Qed.

Lemma login_wrong_password (req : Req.t) (w : World) (u : User.t) :
  Js.truthy_str (Body.email (Req.body req)) = true ->
  Js.truthy_str (Body.password (Req.body req)) = true ->
  calm 1 w = true ->
  unique_emails (db w) ->
  In u (users (db w)) ->
  User.email u = value (Body.email (Req.body req)) ->
  bcrypt_compare (value (Body.password (Req.body req))) (User.password u)
  = false ->
  fst (loginHandler env req w) = Sent invalid_credentials.
Proof.
  intros He Hp Hc Huniq Hin Hmail Hcmp. unfold loginHandler. cbv zeta.
  rewrite He, Hp. cbn [negb orb]. unfold bind.
  rewrite (store_call_calm _ _ _ _ 0 Hc). unfold reading. cbn [fst snd].
  rewrite <- Hmail. rewrite (users_by_email_unique _ _ Huniq Hin).
  cbn [maybeSingle]. rewrite Hcmp. reflexivity.
Qed.

(** C4. With both fields present and the store answering, a login with an
    e-mail address no user has and a login with a user's address and a
    password that does not match get the same response: status 401, error
    'AuthError', message 'Invalid email or password'. *)
Theorem login_failures_are_identical (unknown wrong : Req.t)
  (w1 w2 : World) (u : User.t) :
  Js.truthy_str (Body.email (Req.body unknown)) = true ->
  Js.truthy_str (Body.password (Req.body unknown)) = true ->
  Js.truthy_str (Body.email (Req.body wrong)) = true ->
  Js.truthy_str (Body.password (Req.body wrong)) = true ->
  calm 1 w1 = true -> calm 1 w2 = true ->
  (forall x, In x (users (db w1)) ->
             User.email x <> value (Body.email (Req.body unknown))) ->
  unique_emails (db w2) ->
  In u (users (db w2)) ->
  User.email u = value (Body.email (Req.body wrong)) ->
  bcrypt_compare (value (Body.password (Req.body wrong))) (User.password u)
  = false ->
  fst (loginHandler env unknown w1) = fst (loginHandler env wrong w2)
  /\ fst (loginHandler env unknown w1)
     = Sent (mkResponse 401
               (JObj [("error", JStr "AuthError");
                      ("message", JStr "Invalid email or password")])).
Proof.
  intros He1 Hp1 He2 Hp2 Hc1 Hc2 Habs Huniq Hin Hmail Hcmp.
  rewrite (login_unknown_email unknown w1 He1 Hp1 Hc1 Habs).
  rewrite (login_wrong_password wrong w2 u He2 Hp2 Hc2 Huniq Hin Hmail Hcmp).
  split; reflexivity.
Qed.

End Login.

(** ** Signup *)

Section Signup.
Context {ext : External}.

Lemma calm_weaken (n : nat) (w : World) : calm (S n) w = true -> calm n w = true.
Proof.
  unfold calm. generalize (faults w). induction n as [|n IH]; intros fs.
  - reflexivity.
  - destruct fs as [|f fs]; [reflexivity|].
    change (firstn (S (S n)) (f :: fs)) with (f :: firstn (S n) fs).
    change (firstn (S n) (f :: fs)) with (f :: firstn n fs).
    cbn [forallb]. intros H. apply andb_true_iff in H as [H1 H2].
    rewrite H1. cbn [andb]. apply IH. exact H2.
Qed.

Lemma signup_missing_field (req : Req.t) (w : World) :
  (exists v, In v (signup_fields (Req.body req))
             /\ (v = None \/ v = Some EmptyString)) ->
  signupHandler req w
  = (Sent (error_response 400 "ValidationError" "All fields are required"), w).
Proof.
  intros [v [Hin Hv]].
  assert (Js.truthy_str v = false) as E
    by (destruct Hv as [-> | ->]; reflexivity).
  unfold signupHandler. cbv zeta. unfold signup_fields in Hin.
  cbn [In] in Hin.
  destruct Hin as [<-|[<-|[<-|[<-|[<-|[<-|[]]]]]]]; rewrite E; cbn [negb orb];
    rewrite ?orb_true_r; reflexivity.
Qed.

Lemma signup_guard_passes (b : Body.t) :
  Forall (fun v => Js.truthy_str v = true) (signup_fields b) ->
  negb (Js.truthy_str (Body.name b)) || negb (Js.truthy_str (Body.email b))
  || negb (Js.truthy_str (Body.password b))
  || negb (Js.truthy_str (Body.company_name b))
  || negb (Js.truthy_str (Body.industry b))
  || negb (Js.truthy_str (Body.industry_description b)) = false.
Proof.
  unfold signup_fields. intros H.
  repeat match goal with
         | H : Forall _ (_ :: _) |- _ =>
             let E := fresh "E" in
             inversion H as [|? ? E ?]; clear H; subst; rewrite E
         end.
  reflexivity.
Qed.

Lemma signup_existing_email (req : Req.t) (w : World) (u : User.t) :
  Forall (fun v => Js.truthy_str v = true) (signup_fields (Req.body req)) ->
  calm 1 w = true ->
  unique_emails (db w) ->
  In u (users (db w)) ->
  User.email u = value (Body.email (Req.body req)) ->
  fst (signupHandler req w)
  = Sent (error_response 409 "UserExistsError"
            "User with this email already exists")
  /\ db (snd (signupHandler req w)) = db w.
Proof.
  intros Hf Hc Huniq Hin Hmail. unfold signupHandler. cbv zeta.
  rewrite (signup_guard_passes _ Hf). unfold bind.
  rewrite (store_call_calm _ _ _ _ 0 Hc). unfold reading. cbn [fst snd].
  rewrite <- Hmail. rewrite (users_by_email_unique _ _ Huniq Hin).
  cbn [maybeSingle]. split; reflexivity.
Qed.

Lemma signup_logo_calm (req : Req.t) (w : World) (n : nat) :
  calm (S n) w = true ->
  exists logoUrl w',
    signup_logo req w = (Data logoUrl, w')
    /\ users (db w') = users (db w)
    /\ next_id (db w') = next_id (db w)
    /\ calm n w' = true.
Proof.
  intros Hc. unfold signup_logo. destruct (Req.file req) as [f|].
  - unfold bind, dateNow. rewrite (store_call_calm _ _ _ _ n Hc).
    cbn. eexists. eexists. split; [reflexivity|].
    repeat split. apply (calm_next n w _ _ Hc).
  - exists EmptyString, w. unfold ret.
    repeat split. apply calm_weaken. exact Hc.
Qed.

Lemma signup_new_email (req : Req.t) (w : World) :
  Forall (fun v => Js.truthy_str v = true) (signup_fields (Req.body req)) ->
  calm 3 w = true ->
  (forall u, In u (users (db w)) ->
             User.email u <> value (Body.email (Req.body req))) ->
  exists created,
    fst (signupHandler req w)
    = Sent (mkResponse 201
              (JObj [("success", JBool true);
                     ("data", user_public_json created)]))
    /\ users (db (snd (signupHandler req w))) = users (db w) ++ [created]
    /\ User.email created = value (Body.email (Req.body req))
    /\ User.password created
       = bcrypt_hash (value (Body.password (Req.body req))).
Proof.
  intros Hf Hc Habs. unfold signupHandler. cbv zeta.
  rewrite (signup_guard_passes _ Hf). unfold bind.
  rewrite (store_call_calm _ _ _ _ 2 Hc). unfold reading. cbn [fst snd].
  rewrite (users_by_email_absent _ _ Habs). cbn [maybeSingle].
  pose proof (calm_next 2 w (db w)
                (mkCall Users Select true :: log w) Hc) as Hc'.
  destruct (signup_logo_calm req _ 1 Hc') as [logoUrl [w' [E [Hu [Hn Hc'']]]]].
  cbn [is_data]. rewrite E.
  rewrite (store_call_calm _ _ _ _ 0 Hc''). unfold insert_user. cbn.
  eexists. split; [reflexivity|]. rewrite Hu. cbn.
  repeat split.
Qed.

End Signup.

Lemma signup_ignores_the_hash (ext : External) (h : string -> string)
  (req : Req.t) (w : World) :
  fst (signupHandler (ext := with_hash h ext) req w)
  = fst (signupHandler (ext := ext) req w).
Proof.
  unfold signupHandler. cbv zeta.
  destruct (_ || _); [reflexivity|].
  unfold bind.
  destruct (store_call Users Select _ w) as [[[existing|]|e] w1];
    try reflexivity.
  assert (signup_logo (ext := with_hash h ext) req w1
          = signup_logo (ext := ext) req w1) as E by reflexivity.
  rewrite E. destruct (signup_logo req w1) as [[logoUrl|e] w2];
    [|reflexivity].
  unfold store_call. destruct (faults w2) as [|[e|] later]; reflexivity.
Qed.

(** C6. Signup answers 400 and leaves the world as it was when any of the
    six required members is absent or empty; with all six present and the
    store answering, it answers 409 and changes no table when a user with
    the same e-mail address is stored, and otherwise answers 201, stores the
    user with the hashed password, and returns exactly the seven public
    members of the stored user: no [password] member, and the same response
    whatever the password hash is. *)
Theorem signup_outcomes (ext : External) (req : Req.t) (w : World) :
  let b := Req.body req in
  ((exists v, In v (signup_fields b) /\ (v = None \/ v = Some EmptyString)) ->
   signupHandler req w
   = (Sent (error_response 400 "ValidationError" "All fields are required"),
      w))
  /\ (Forall (fun v => Js.truthy_str v = true) (signup_fields b) ->
      calm 1 w = true ->
      unique_emails (db w) ->
      forall u, In u (users (db w)) ->
      User.email u = value (Body.email b) ->
      sent_status (fst (signupHandler req w)) = Some 409
      /\ db (snd (signupHandler req w)) = db w)
  /\ (Forall (fun v => Js.truthy_str v = true) (signup_fields b) ->
      calm 3 w = true ->
      (forall u, In u (users (db w)) -> User.email u <> value (Body.email b)) ->
      exists created,
        fst (signupHandler req w)
        = Sent (mkResponse 201
                  (JObj [("success", JBool true);
                         ("data", user_public_json created)]))
        /\ users (db (snd (signupHandler req w))) = users (db w) ++ [created]
        /\ User.email created = value (Body.email b)
        /\ User.password created = bcrypt_hash (value (Body.password b))
        /\ keys (user_public_json created) = public_fields
        /\ member "password" (user_public_json created) = None
        /\ forall h,
            fst (signupHandler (ext := with_hash h ext) req w)
            = fst (signupHandler req w)).
Proof.
  intros b. split; [apply signup_missing_field|]. split.
  - intros Hf Hc Huniq u Hin Hmail.
    destruct (signup_existing_email req w u Hf Hc Huniq Hin Hmail) as [E1 E2].
    rewrite E1. split; [reflexivity | exact E2].
  - intros Hf Hc Habs.
    destruct (signup_new_email req w Hf Hc Habs) as [created [E1 [E2 [E3 E4]]]].
    exists created. repeat split; try assumption.
    intros h. apply signup_ignores_the_hash.
Qed.

Lemma signup_logo_users (ext : External) (req : Req.t) (w : World) :
  users (db (snd (signup_logo req w))) = users (db w).
Proof.
  unfold signup_logo. destruct (Req.file req) as [f|]; [|reflexivity].
  unfold bind, dateNow, store_call.
  destruct (faults w) as [|[e|] later]; reflexivity.
Qed.

Lemma signup_users (ext : External) (req : Req.t) (w : World) (o : Outcome)
  (w' : World) :
  signupHandler req w = (o, w') ->
  users (db w') = users (db w)
  \/ exists created,
       users (db w') = users (db w) ++ [created]
       /\ forall u, In u (users (db w)) -> User.email u <> User.email created.
Proof.
  unfold signupHandler. cbv zeta.
  destruct (_ || _); [intros H; injection H as <- <-; left; reflexivity|].
  unfold bind, store_call at 1.
  destruct (faults w) as [|[e|] later] eqn:Ef; cbn [reading fst snd tl].
  2: { intros H. left. unfold signup_catch in H.
       destruct (instanceofError e); injection H as <- <-; reflexivity. }
  all: destruct (users_by_email _ (db w)) as [|x [|y l]] eqn:Eq;
    cbn [maybeSingle is_data];
    try (intros H; injection H as <- <-; left; reflexivity).
  all: try (intros H; left; unfold signup_catch in H;
            destruct (instanceofError _); injection H as <- <-; reflexivity).
  all: match goal with
       | |- context [signup_logo ?r ?w0] =>
           pose proof (signup_logo_users _ r w0) as Hu;
           destruct (signup_logo r w0) as [[logoUrl|e] w2]
       end; cbn [snd db users] in Hu.
  all: try (intros H; left; unfold signup_catch in H;
            destruct (instanceofError e); injection H as <- <-; exact Hu).
  all: unfold store_call; destruct (faults w2) as [|[e|] later'];
    cbn [insert_user fst snd].
  all: try (intros H; left; unfold signup_catch in H;
            destruct (instanceofError e); injection H as <- <-; exact Hu).
  all: intros H; injection H as <- <-; right; eexists; cbn; rewrite Hu;
    (split; [reflexivity|]).
  all: cbn; intros u Hin E;
    match type of Eq with
    | ?q = _ =>
        assert (In u q) as Hin'
          by (apply filter_In; split; [exact Hin | apply String.eqb_eq, E])
    end;
    rewrite Eq in Hin'; exact Hin'.
Qed.

(** Signup keeps e-mail addresses unique, with or without outages. *)
Lemma signup_keeps_emails_unique (ext : External) (req : Req.t) (w : World) :
  unique_emails (db w) -> unique_emails (db (snd (signupHandler req w))).
Proof.
  intros Huniq. unfold unique_emails in *.
  destruct (signupHandler req w) as [o w'] eqn:E.
  destruct (signup_users ext req w o w' E) as [Hu | [created [Hu Hfresh]]];
    cbn [snd]; rewrite Hu.
  - exact Huniq.
  - rewrite map_app. cbn [map]. apply NoDup_app.
    + exact Huniq.
    + constructor; [intros [] | constructor].
    + intros a Ha [<-|[]]. apply in_map_iff in Ha as [u [Eu Hin]].
      apply (Hfresh u Hin Eu).
Qed.

(** ** Listing tenders *)

(** C7. With the store answering, 'my tenders' returns exactly the stored
    tenders whose [creator_id] is the caller's and 'others' exactly those
    whose [creator_id] is not, each list by decreasing [created_at]; no
    tender of another user is in the caller's 'my tenders'. *)
Theorem my_and_others_partition_the_tenders (req : AuthRequest) (w : World) :
  calm 1 w = true ->
  let caller := userId (user req) in
  exists mine others,
    fst (myTendersHandler req w)
    = Sent (mkResponse 200
              (JObj [("success", JBool true);
                     ("tenders", JArr (map tender_json mine))]))
    /\ Permutation mine
         (filter (fun t => String.eqb (Tender.creator_id t) caller)
            (tenders (db w)))
    /\ (forall t, In t mine <->
                  In t (tenders (db w)) /\ Tender.creator_id t = caller)
    /\ newest_first Tender.created_at mine
    /\ fst (othersTendersHandler req w)
       = Sent (mkResponse 200 (JObj [("tenders", JArr (map tender_json others))]))
    /\ Permutation others
         (filter (fun t => negb (String.eqb (Tender.creator_id t) caller))
            (tenders (db w)))
    /\ (forall t, In t others <->
                  In t (tenders (db w)) /\ Tender.creator_id t <> caller)
    /\ newest_first Tender.created_at others.
Proof.
  intros Hc caller.
  exists (tenders_of caller (db w)), (tenders_not_of caller (db w)).
  repeat apply conj.
  - unfold myTendersHandler, bind. cbv zeta.
    rewrite (store_call_calm _ _ _ _ 0 Hc). reflexivity.
  - apply order_desc_perm.
  - intros t. unfold tenders_of. rewrite order_desc_In, filter_In.
    rewrite String.eqb_eq. reflexivity.
  - apply order_desc_sorted.
  - unfold othersTendersHandler, bind. cbv zeta.
    rewrite (store_call_calm _ _ _ _ 0 Hc). reflexivity.
  - apply order_desc_perm.
  - intros t. unfold tenders_not_of. rewrite order_desc_In, filter_In.
    rewrite negb_true_iff, String.eqb_neq. reflexivity.
  - apply order_desc_sorted.
Qed.

(** ** Search *)

Section Search.
Context {ext : External}.




End Search.

(** ** Ownership checks *)

Lemma filter_key_absent {A} (key : A -> string) (k : string) (l : list A) :
  (forall x, In x l -> key x <> k) ->
  filter (fun x => String.eqb (key x) k) l = [].
Proof.
  induction l as [|x l IH]; simpl; intros H; [reflexivity|].
  destruct (String.eqb_spec (key x) k) as [E|_].
  - exfalso. apply (H x); [left; reflexivity | exact E].
  - apply IH. intros y Hy. apply H. right. exact Hy.
Qed.

Lemma filter_key_unique {A} (key : A -> string) (u : A) (l : list A) :
  NoDup (map key l) -> In u l ->
  filter (fun x => String.eqb (key x) (key u)) l = [u].
Proof.
  induction l as [|x l IH]; simpl; intros Hn Hin; [contradiction|].
  inversion Hn as [|? ? Hx Hl]; subst.
  destruct Hin as [->|Hin].
  - rewrite String.eqb_refl. f_equal. apply filter_key_absent.
    intros y Hy E. apply Hx. rewrite <- E. apply in_map. exact Hy.
  - destruct (String.eqb_spec (key x) (key u)) as [E|_].
    + exfalso. apply Hx. rewrite E. apply in_map. exact Hin.
    + apply IH; assumption.
Qed.

Lemma list_applications_refused (req : AuthRequest) (w : World) :
  (forall t, In t (tenders (db w)) ->
             Tender.id t = Req.params_id (request req) ->
             Tender.creator_id t <> userId (user req)) ->
  sent_status (fst (listApplicationsHandler req w)) = Some 403
  /\ db (snd (listApplicationsHandler req w)) = db w.
Proof.
  intros Hno. unfold listApplicationsHandler, bind, store_call, ret. cbv zeta.
  destruct (faults w) as [|[e|] later]; cbn [reading fst snd tl].
  2: split; reflexivity.
  all: destruct (tenders_by_id _ (db w)) as [|t [|t' l]] eqn:Eq;
    cbn [maybeSingle is_data]; try (split; reflexivity).
  all: assert (In t (tenders_by_id (Req.params_id (request req)) (db w)))
         as Hin by (rewrite Eq; left; reflexivity);
    apply filter_In in Hin as [Hin Hid]; apply String.eqb_eq in Hid;
    apply (Hno t Hin) in Hid; apply String.eqb_neq in Hid; rewrite Hid;
    split; reflexivity.
Qed.

Lemma update_status_refused (req : AuthRequest) (w : World)
  (a : Application.t) :
  (Body.status (Req.body (request req)) = Some (JStr "accepted")
   \/ Body.status (Req.body (request req)) = Some (JStr "rejected")) ->
  calm 1 w = true ->
  NoDup (map Application.id (applications (db w))) ->
  In a (applications (db w)) ->
  Application.id a = Req.params_id (request req) ->
  (forall t, In t (tenders (db w)) ->
             Tender.id t = Application.tender_id a ->
             Tender.creator_id t <> userId (user req)) ->
  fst (updateStatusHandler req w) = Sent (message_response 403 "Unauthorized")
  /\ db (snd (updateStatusHandler req w)) = db w.
Proof.
  intros Hst Hc Huniq Hin Hid Hno.
  unfold updateStatusHandler, bind. cbv zeta.
  assert (exists st, valid_status (Body.status (Req.body (request req)))
                     = Some st) as [st ->]
    by (destruct Hst as [-> | ->]; eexists; reflexivity).
  rewrite (store_call_calm _ _ _ _ 0 Hc). unfold reading. cbn [fst snd].
  unfold applications_by_id. rewrite <- Hid.
  rewrite (filter_key_unique Application.id a _ Huniq Hin).
  cbn [maybeSingle is_data]. unfold store_call, ret. cbn [faults db].
  destruct (tl (faults w)) as [|[e|] later]; cbn [fst snd tl].
  2: split; reflexivity.
  all: destruct (tenders_by_id _ (db w)) as [|t [|t' l]] eqn:Eq;
    cbn [maybeSingle is_data]; try (split; reflexivity).
  all: assert (In t (tenders_by_id (Application.tender_id a) (db w)))
         as Ht by (rewrite Eq; left; reflexivity);
    apply filter_In in Ht as [Ht Htid]; apply String.eqb_eq in Htid;
    apply (Hno t Ht) in Htid; apply String.eqb_neq in Htid; rewrite Htid;
    split; reflexivity.
Qed.

Lemma update_status_missing (req : AuthRequest) (w : World) :
  (Body.status (Req.body (request req)) = Some (JStr "accepted")
   \/ Body.status (Req.body (request req)) = Some (JStr "rejected")) ->
  (forall a, In a (applications (db w)) ->
             Application.id a <> Req.params_id (request req)) ->
  fst (updateStatusHandler req w)
  = Sent (message_response 404 "Application not found")
  /\ db (snd (updateStatusHandler req w)) = db w.
Proof.
  intros Hst Habs.
  unfold updateStatusHandler, bind. cbv zeta.
  assert (exists st, valid_status (Body.status (Req.body (request req)))
                     = Some st) as [st ->]
    by (destruct Hst as [-> | ->]; eexists; reflexivity).
  unfold store_call, ret, reading, applications_by_id.
  rewrite (filter_key_absent Application.id _ _ Habs).
  destruct (faults w) as [|[e|] later]; split; reflexivity.
Qed.

(** C1 (amended). For a caller who is not the creator of Tender X: listing
    the applications on X is answered 403 whether X is stored or not (and
    whether the store answers or not); a status update with a valid status
    on a stored application that belongs to X is answered 403, whether X is
    stored or not; a status update on an application that is not stored is
    answered 404.  None of them changes a table. *)
Theorem non_owners_are_refused (req : AuthRequest) (w : World) :
  let caller := userId (user req) in
  let valid :=
    Body.status (Req.body (request req)) = Some (JStr "accepted")
    \/ Body.status (Req.body (request req)) = Some (JStr "rejected") in
  ((forall t, In t (tenders (db w)) ->
              Tender.id t = Req.params_id (request req) ->
              Tender.creator_id t <> caller) ->
   sent_status (fst (listApplicationsHandler req w)) = Some 403
   /\ db (snd (listApplicationsHandler req w)) = db w)
  /\ (valid ->
      calm 1 w = true ->
      NoDup (map Application.id (applications (db w))) ->
      forall a,
        In a (applications (db w)) ->
        Application.id a = Req.params_id (request req) ->
        (forall t, In t (tenders (db w)) ->
                   Tender.id t = Application.tender_id a ->
                   Tender.creator_id t <> caller) ->
        fst (updateStatusHandler req w)
        = Sent (message_response 403 "Unauthorized")
        /\ db (snd (updateStatusHandler req w)) = db w)
  /\ (valid ->
      (forall a, In a (applications (db w)) ->
                 Application.id a <> Req.params_id (request req)) ->
      fst (updateStatusHandler req w)
      = Sent (message_response 404 "Application not found")
      /\ db (snd (updateStatusHandler req w)) = db w).
Proof.
  intros caller valid. split; [apply list_applications_refused|]. split.
  - intros Hst Hc Huniq a Hin Hid Hno.
    apply (update_status_refused req w a Hst Hc Huniq Hin Hid Hno).
  - apply update_status_missing.
Qed.

(** ** Store failures *)

Lemma new_calls_app (w w' : World) (cs : list Call) :
  log w' = cs ++ log w -> new_calls w w' = cs.
Proof.
  intros E. unfold new_calls. rewrite E, length_app, Nat.add_sub. clear E.
  induction cs as [|c cs IH]; simpl; [reflexivity|].
  f_equal. exact IH.
Qed.

(** Splitting a run on the outages that are due, on the rows a query finds
    and on the conditions the handler tests. *)
Ltac split_run :=
  repeat (cbn [reading fst snd tl maybeSingle is_data];
          match goal with
          | |- context [match faults ?w with _ => _ end] =>
              destruct (faults w) as [|[?|] ?]
          | |- context [maybeSingle ?rows] =>
              destruct rows as [|? [|? ?]]
          | |- context [if ?b then _ else _] => destruct b eqn:?
          | |- context [match valid_status ?s with _ => _ end] =>
              destruct (valid_status s)
          | |- context [match Req.file ?r with _ => _ end] =>
              destruct (Req.file r)
          end).





Section Failures.
Context {ext : External}.
Variable env : Env.










Lemma verifyJWT_run (req : Req.t) (next : AuthRequest -> M Outcome)
  (w : World) :
  snd (verifyJWT env req next w) = w
  \/ exists decoded,
       verifyJWT env req next w = next (mkAuthRequest decoded req) w.
Proof.
  unfold verifyJWT. cbv zeta. destruct (_ || _); [left; reflexivity|].
  unfold bind, dateNow. destruct (JwtLib.verify _ _ _) as [decoded|err].
  - right. exists decoded. reflexivity.
  - left. reflexivity.
Qed.

End Failures.

Section Policy.
Context {ext : External}.
Variable env : Env.


End Policy.

(** * Further properties of the routes *)

(** ** Pieces of a header *)

Lemma split_without_separator (sep : ascii) (s : string) :
  contains_char sep s = false -> Js.split sep s = [s].
Proof.
  induction s as [|c s IH]; simpl; intros H; [reflexivity|].
  apply orb_false_iff in H as [Hc Hs]. rewrite Hc, (IH Hs). reflexivity.
Qed.

Lemma split_at_separator (sep : ascii) (a b : string) :
  contains_char sep a = false ->
  Js.split sep (a ++ String sep b) = a :: Js.split sep b.
Proof.
  induction a as [|c a IH]; simpl; intros H.
  - rewrite Ascii.eqb_refl. reflexivity.
  - apply orb_false_iff in H as [Hc Ha]. rewrite Hc, (IH Ha). reflexivity.
Qed.

Lemma bearer_token (tok : string) :
  contains_char " " tok = false ->
  nth_error (Js.split " " ("Bearer " ++ tok)) 1 = Some tok.
Proof.
  intros H.
  change ("Bearer " ++ tok)%string with ("Bearer" ++ String " " tok)%string.
  rewrite split_at_separator by reflexivity.
  rewrite (split_without_separator _ _ H). reflexivity.
Qed.

Lemma bearer_token_then_more (tok more : string) :
  contains_char " " tok = false ->
  nth_error (Js.split " " ("Bearer " ++ tok ++ String " " more)) 1 = Some tok.
Proof.
  intros H.
  change ("Bearer " ++ tok ++ String " " more)%string
    with ("Bearer" ++ String " " (tok ++ String " " more))%string.
  rewrite split_at_separator by reflexivity.
  rewrite (split_at_separator _ _ _ H). reflexivity.
Qed.

Lemma startsWith_append (p s : string) : Js.startsWith (p ++ s) p = true.
Proof.
  unfold Js.startsWith. induction p as [|c p IH]; simpl.
  - destruct s; reflexivity.
  - destruct (ascii_dec c c) as [_|N]; [exact IH | contradiction N; reflexivity].
Qed.

Section Bearer.
Context {ext : External}.
Variable env : Env.

(** X4. [verifyJWT] verifies the text between ['Bearer '] and the next
    space: whatever follows that space in the header is ignored. *)
Theorem bearer_token_ends_at_the_next_space (req : Req.t)
  (next : AuthRequest -> M Outcome) (w : World) (tok more : string) :
  contains_char " " tok = false ->
  Req.authorization req = Some ("Bearer " ++ tok ++ String " " more)%string ->
  verifyJWT env req next w
  = match JwtLib.verify (Some tok) (JWT_SECRET env) (now w / 1000) with
    | Jwt.Decoded decoded => next (mkAuthRequest decoded req) w
    | Jwt.Thrown _ =>
        (Sent (message_response 403 "Invalid or expired token"), w)
    end.
Proof.
  intros Htok Hh.
  rewrite (verifyJWT_checks env req next w _ Hh (startsWith_append _ _)).
  rewrite (bearer_token_then_more tok more Htok). reflexivity.
Qed.

End Bearer.

Section Sessions.
Context {ext : External}.
Variable env : Env.

Lemma login_ok_only_on_a_match (req : Req.t) (w : World) :
  sent_status (fst (loginHandler env req w)) = Some 200 ->
  exists u,
    In u (users (db w))
    /\ User.email u = value (Body.email (Req.body req))
    /\ bcrypt_compare (value (Body.password (Req.body req))) (User.password u)
       = true
    /\ fst (loginHandler env req w)
       = Sent (mkResponse 200
                 (JObj [("success", JBool true);
                        ("token",
                         JStr (JwtLib.signed
                                 (mkAuthUser (User.id u) (User.email u))
                                 (JWT_SECRET env) JwtLib.expiresIn_1h
                                 (now w / 1000)))]))
    /\ snd (loginHandler env req w)
       = mkWorld (db w) (now w) (tl (faults w))
           (mkCall Users Select true :: log w)
    /\ JWT_SECRET env <> EmptyString.
Proof.
  unfold loginHandler, unexpected_catch, JwtLib.sign, JwtLib.secret_missing,
    bind, store_call, ret, dateNow.
  cbv zeta.
  destruct (_ || _); [discriminate|].
  destruct (faults w) as [|[e|] later]; cbn [reading fst snd tl].
  2: destruct (instanceofError e); discriminate.
  all: destruct (users_by_email _ (db w)) as [|u [|u' l]] eqn:Eq;
    cbn [maybeSingle is_data]; try discriminate.
  all: destruct (bcrypt_compare _ (User.password u)) eqn:Ecmp;
    cbn [negb]; try discriminate.
  all: destruct (String.eqb_spec (JWT_SECRET env) EmptyString) as [Es|Es];
    cbn [instanceofError]; try discriminate.
  all: intros _; exists u;
    assert (In u (users_by_email (value (Body.email (Req.body req))) (db w)))
      as Hin by (rewrite Eq; left; reflexivity);
    apply users_by_email_sound in Hin as [Hin Hmail];
    repeat split; try assumption; reflexivity.
Qed.

(** X1. Login answers 200 only when a stored user has the given e-mail
    address and [bcrypt.compare] accepts the password against that user's
    hash; the token is then signed for that user's id and address, the
    run made one successful look-up and changed no table, and the server
    has a signing secret. *)
Theorem login_issues_a_token_only_on_a_match (req : Req.t) (w : World) :
  sent_status (fst (loginHandler env req w)) = Some 200 ->
  exists u,
    In u (users (db w))
    /\ User.email u = value (Body.email (Req.body req))
    /\ bcrypt_compare (value (Body.password (Req.body req))) (User.password u)
       = true
    /\ fst (loginHandler env req w)
       = Sent (mkResponse 200
                 (JObj [("success", JBool true);
                        ("token",
                         JStr (JwtLib.signed
                                 (mkAuthUser (User.id u) (User.email u))
                                 (JWT_SECRET env) JwtLib.expiresIn_1h
                                 (now w / 1000)))]))
    /\ snd (loginHandler env req w)
       = mkWorld (db w) (now w) (tl (faults w))
           (mkCall Users Select true :: log w)
    /\ JWT_SECRET env <> EmptyString.
Proof. exact (login_ok_only_on_a_match req w). Qed.

(** What [verifyJWT] does with the token of a successful login: the
    handler runs for the logged-in user until the whole seconds of the clock
    reach the whole seconds of the login plus 3600. *)
Lemma login_token_at_the_gateway (login req : Req.t) (w1 w2 : World)
  (tok : string) (next : AuthRequest -> M Outcome) :
  (forall tk, jwt_decode (jwt_encode tk) = Some tk) ->
  contains_char " " tok = false ->
  fst (loginHandler env login w1)
  = Sent (mkResponse 200
            (JObj [("success", JBool true); ("token", JStr tok)])) ->
  Req.authorization req = Some ("Bearer " ++ tok)%string ->
  exists u,
    In u (users (db w1))
    /\ User.email u = value (Body.email (Req.body login))
    /\ verifyJWT env req next w2
       = if now w2 / 1000 >=? now w1 / 1000 + 3600
         then (Sent (message_response 403 "Invalid or expired token"), w2)
         else next (mkAuthRequest (mkAuthUser (User.id u) (User.email u)) req)
                w2.
Proof.
  intros Hcodec Hspace Hlogin Hauth.
  destruct (login_ok_only_on_a_match login w1)
    as [u [Hin [Hmail [_ [E [_ Hsecret]]]]]].
  { rewrite Hlogin. reflexivity. }
  rewrite Hlogin in E. injection E as ->.
  exists u. split; [exact Hin|]. split; [exact Hmail|].
  rewrite (verifyJWT_checks env req next w2 _ Hauth (startsWith_append _ _)).
  rewrite (bearer_token _ Hspace).
  rewrite (verify_signed _ _ _ _ Hcodec Hsecret).
  destruct (now w2 / 1000 >=? now w1 / 1000 + 3600); reflexivity.
Qed.

(** C3 (amended). The token of a login at T milliseconds, sent as
    ['Bearer ' + token], is verified to the logged-in user's
    [{userId, email}] at every time up to one second before T + 1 hour, and
    is refused with 403 at every time from T + 1 hour on; in particular it
    is accepted at T + 59 minutes and refused at T + 61 minutes.  In the
    last second before T + 1 hour it is accepted or refused according to
    the whole seconds of the two clock readings. *)
Theorem login_token_lifetime (login req : Req.t) (w1 w2 : World)
  (tok : string) (next : AuthRequest -> M Outcome) :
  (forall tk, jwt_decode (jwt_encode tk) = Some tk) ->
  contains_char " " tok = false ->
  fst (loginHandler env login w1)
  = Sent (mkResponse 200
            (JObj [("success", JBool true); ("token", JStr tok)])) ->
  Req.authorization req = Some ("Bearer " ++ tok)%string ->
  exists u,
    In u (users (db w1))
    /\ User.email u = value (Body.email (Req.body login))
    /\ let accepted :=
         verifyJWT env req next w2
         = next (mkAuthRequest (mkAuthUser (User.id u) (User.email u)) req)
             w2 in
       let refused :=
         verifyJWT env req next w2
         = (Sent (message_response 403 "Invalid or expired token"), w2) in
       (now w2 + 1000 <= now w1 + 60 * 60 * 1000 -> accepted)
       /\ (now w1 + 60 * 60 * 1000 <= now w2 -> refused)
       /\ (now w2 = now w1 + 59 * 60 * 1000 -> accepted)
       /\ (now w2 = now w1 + 61 * 60 * 1000 -> refused)
       /\ (now w2 / 1000 < now w1 / 1000 + 60 * 60 -> accepted)
       /\ (now w1 / 1000 + 60 * 60 <= now w2 / 1000 -> refused).
Proof.
  intros Hcodec Hspace Hlogin Hauth.
  destruct (login_token_at_the_gateway login req w1 w2 tok next Hcodec Hspace
              Hlogin Hauth) as [u [Hin [Hmail E]]].
  exists u. split; [exact Hin|]. split; [exact Hmail|].
  cbv zeta. rewrite E.
  assert (now w1 / 1000 + 3600 = (now w1 + 3600000) / 1000) as Eh
    by (replace (now w1 + 3600000) with (now w1 + 3600 * 1000) by lia;
        rewrite Z.div_add by lia; reflexivity).
  assert (forall x, (x + 1000) / 1000 = x / 1000 + 1) as Es
    by (intros x; replace (x + 1000) with (x + 1 * 1000) by lia;
        rewrite Z.div_add by lia; reflexivity).
  assert (now w2 + 1000 <= now w1 + 60 * 60 * 1000 ->
          now w2 / 1000 < now w1 / 1000 + 3600) as Hearly.
  { intros H.
    assert ((now w2 + 1000) / 1000 <= (now w1 + 3600000) / 1000)
      by (apply Z.div_le_mono; lia).
    rewrite Es in *. lia. }
  assert (now w1 + 60 * 60 * 1000 <= now w2 ->
          now w1 / 1000 + 3600 <= now w2 / 1000) as Hlate.
  { intros H. rewrite Eh. apply Z.div_le_mono; lia. }
  destruct (Z.geb_spec (now w2 / 1000) (now w1 / 1000 + 3600)) as [G|G].
  - repeat split; intros H; try reflexivity; exfalso.
    + apply Hearly in H. lia.
    + assert (now w2 + 1000 <= now w1 + 60 * 60 * 1000) as H' by lia.
      apply Hearly in H'. lia.
    + lia.
  - repeat split; intros H; try reflexivity; exfalso.
    + apply Hlate in H. lia.
    + assert (now w1 + 60 * 60 * 1000 <= now w2) as H' by lia.
      apply Hlate in H'. lia.
    + lia.
Qed.

(** X3. The token of a successful login, sent as ['Bearer ' + token], takes
    a request through [verifyJWT] to the handler with the user's id and
    address while the clock is less than 3600 seconds past the login, and
    is answered 403 from then on. *)
Theorem login_token_opens_the_gateway_for_an_hour (login req : Req.t)
  (w1 w2 : World) (tok : string) (next : AuthRequest -> M Outcome) :
  (forall tk, jwt_decode (jwt_encode tk) = Some tk) ->
  contains_char " " tok = false ->
  fst (loginHandler env login w1)
  = Sent (mkResponse 200
            (JObj [("success", JBool true); ("token", JStr tok)])) ->
  Req.authorization req = Some ("Bearer " ++ tok)%string ->
  exists u,
    In u (users (db w1))
    /\ User.email u = value (Body.email (Req.body login))
    /\ (now w2 / 1000 < now w1 / 1000 + 60 * 60 ->
        verifyJWT env req next w2
        = next (mkAuthRequest (mkAuthUser (User.id u) (User.email u)) req) w2)
    /\ (now w1 / 1000 + 60 * 60 <= now w2 / 1000 ->
        verifyJWT env req next w2
        = (Sent (message_response 403 "Invalid or expired token"), w2)).
Proof.
  intros Hcodec Hspace Hlogin Hauth.
  destruct (login_token_at_the_gateway login req w1 w2 tok next Hcodec Hspace
              Hlogin Hauth) as [u [Hin [Hmail E]]].
  exists u. split; [exact Hin|]. split; [exact Hmail|].
  split; intros H; rewrite E.
  - destruct (Z.geb_spec (now w2 / 1000) (now w1 / 1000 + 3600));
      [lia | reflexivity].
  - destruct (Z.geb_spec (now w2 / 1000) (now w1 / 1000 + 3600));
      [reflexivity | lia].
Qed.

(** X5. A token signed under another secret, whose signature differs from
    the one the server's secret gives, is answered 403 whatever the clock
    reads, and the handler is not run. *)
Theorem forged_tokens_are_refused (req : Req.t) (w : World)
  (next : AuthRequest -> M Outcome) (u : AuthUser) (forged : string)
  (T : Z) :
  (forall tk, jwt_decode (jwt_encode tk) = Some tk) ->
  contains_char " " (JwtLib.signed u forged JwtLib.expiresIn_1h T) = false ->
  hmac (JWT_SECRET env) (Jwt.mkClaims u T (T + JwtLib.expiresIn_1h))
  <> hmac forged (Jwt.mkClaims u T (T + JwtLib.expiresIn_1h)) ->
  Req.authorization req
  = Some ("Bearer " ++ JwtLib.signed u forged JwtLib.expiresIn_1h T)%string ->
  verifyJWT env req next w
  = (Sent (message_response 403 "Invalid or expired token"), w).
Proof.
  intros Hcodec Hspace Hsig Hauth.
  rewrite (verifyJWT_checks env req next w _ Hauth (startsWith_append _ _)).
  rewrite (bearer_token _ Hspace).
  destruct (verify_rejects_foreign_signature u _ forged T (now w / 1000)
              Hcodec Hsig) as [err E].
  rewrite E. reflexivity.
Qed.

End Sessions.

(** ** What every run respects *)

Lemma extends_refl {A} (l : list A) : extends l l.
Proof. exists []. symmetry. apply app_nil_r. Qed.

Lemma grows_refl (d : Db) : grows d d.
Proof.
  unfold grows. repeat split; try apply extends_refl. exists []. reflexivity.
Qed.

Lemma frozen_update (appId st : string) (l : list Application.t) :
  map frozen
    (map (fun a =>
            if String.eqb (Application.id a) appId then set_status st a else a)
       l)
  = map frozen l.
Proof.
  induction l as [|a l IH]; simpl; [reflexivity|].
  rewrite IH. destruct (String.eqb (Application.id a) appId); reflexivity.
Qed.

Ltac grown :=
  unfold grows; cbn [db users tenders applications logos];
  rewrite ?frozen_update, ?map_app;
  repeat split;
  first [ apply extends_refl
        | exists []; reflexivity
        | eexists; reflexivity
        | eexists [_]; reflexivity ].

Ltac logged :=
  first
    [ rewrite (new_calls_app _ _ []) by reflexivity
    | rewrite (new_calls_app _ _ [_]) by reflexivity
    | rewrite (new_calls_app _ _ [_; _]) by reflexivity
    | rewrite (new_calls_app _ _ [_; _; _]) by reflexivity ].

Ltac tidy :=
  intros H; injection H as <- <-; unfold orderly;
  split; [grown|]; logged;
  split; [cbn [length]; lia|];
  split;
  [ cbn [tl In]; intros c Hin;
    repeat match goal with
           | H : _ \/ _ |- _ => destruct H
           | H : False |- _ => destruct H
           end; subst; reflexivity
  | cbn; intros H400; first [reflexivity | discriminate H400] ].

Section Order.
Context {ext : External}.
Variable env : Env.

Lemma me_orderly (req : AuthRequest) (w : World) o w' :
  meHandler req w = (o, w') -> orderly w o w'.
Proof.
  unfold meHandler, bind, store_call, ret. split_run; tidy.
Qed.

Lemma signup_orderly (req : Req.t) (w : World) o w' :
  signupHandler req w = (o, w') -> orderly w o w'.
Proof.
  unfold signupHandler, signup_logo, signup_catch, bind, store_call, ret,
    dateNow, insert_user, upload_logo.
  cbv zeta. split_run; tidy.
Qed.

Lemma status_orderly (req : AuthRequest) (w : World) o w' :
  updateStatusHandler req w = (o, w') -> orderly w o w'.
Proof.
  unfold updateStatusHandler, update_status, bind, store_call, ret.
  cbv zeta. split_run; tidy.
Qed.

Lemma login_orderly (req : Req.t) (w : World) o w' :
  loginHandler env req w = (o, w') -> orderly w o w'.
Proof.
  unfold loginHandler, unexpected_catch, JwtLib.sign, bind, store_call, ret,
    dateNow.
  cbv zeta. split_run; tidy.
Qed.

Lemma createTender_orderly (req : AuthRequest) (w : World) o w' :
  createTenderHandler req w = (o, w') -> orderly w o w'.
Proof.
  unfold createTenderHandler, bind, store_call, ret, dateNow, insert_tender.
  cbv zeta. split_run; tidy.
Qed.

Lemma myTenders_orderly (req : AuthRequest) (w : World) o w' :
  myTendersHandler req w = (o, w') -> orderly w o w'.
Proof.
  unfold myTendersHandler, bind, store_call, ret. cbv zeta. split_run; tidy.
Qed.

Lemma others_orderly (req : AuthRequest) (w : World) o w' :
  othersTendersHandler req w = (o, w') -> orderly w o w'.
Proof.
  unfold othersTendersHandler, bind, store_call, ret. cbv zeta.
  split_run; tidy.
Qed.

Lemma apply_orderly (req : AuthRequest) (w : World) o w' :
  applyHandler req w = (o, w') -> orderly w o w'.
Proof.
  unfold applyHandler, bind, store_call, ret, dateNow, insert_application.
  cbv zeta. split_run; tidy.
Qed.

Lemma list_orderly (req : AuthRequest) (w : World) o w' :
  listApplicationsHandler req w = (o, w') -> orderly w o w'.
Proof.
  unfold listApplicationsHandler, bind, store_call, ret. cbv zeta.
  split_run; tidy.
Qed.

Lemma myApplications_orderly (req : AuthRequest) (w : World) o w' :
  myApplicationsHandler req w = (o, w') -> orderly w o w'.
Proof.
  unfold myApplicationsHandler, bind, store_call, ret. cbv zeta.
  split_run; tidy.
Qed.

Lemma myWithApplications_orderly (req : AuthRequest) (w : World) o w' :
  myWithApplicationsHandler req w = (o, w') -> orderly w o w'.
Proof.
  unfold myWithApplicationsHandler, bind, store_call, ret. cbv zeta.
  split_run; tidy.
Qed.

Lemma search_orderly (req : AuthRequest) (w : World) o w' :
  searchHandler req w = (o, w') -> orderly w o w'.
Proof.
  unfold searchHandler, bind, store_call, ret. cbv zeta. split_run; tidy.
Qed.

Lemma verifyJWT_orderly (req : Req.t) (h : AuthRequest -> M Outcome)
  (w : World) :
  (forall areq o w', h areq w = (o, w') -> orderly w o w') ->
  orderly w (fst (verifyJWT env req h w)) (snd (verifyJWT env req h w)).
Proof.
  intros Hh. unfold verifyJWT. cbv zeta.
  assert (forall r, status r <> 400 -> orderly w (Sent r) w) as Hstay.
  { intros r Hr. unfold orderly. split; [apply grows_refl|].
    rewrite (new_calls_app w w []) by reflexivity.
    split; [cbn; lia|]. split; [intros c []|]. reflexivity. }
  destruct (_ || _); [apply Hstay; discriminate|].
  unfold bind, dateNow.
  destruct (JwtLib.verify _ _ _) as [decoded|err].
  - destruct (h (mkAuthRequest decoded req) w) as [o w'] eqn:E.
    apply (Hh _ _ _ E).
  - apply Hstay. discriminate.
Qed.

Lemma route_orderly (e : Endpoint) (req : Req.t) (w : World) :
  orderly w (fst (route env e req w)) (snd (route env e req w)).
Proof.
  destruct e; unfold route; cbn [registered].
  - destruct (signupHandler req w) as [o w'] eqn:E.
    apply (signup_orderly _ _ _ _ E).
  - destruct (loginHandler env req w) as [o w'] eqn:E.
    apply (login_orderly _ _ _ _ E).
  - apply verifyJWT_orderly. intros areq o w'. apply me_orderly.
  - apply verifyJWT_orderly. intros areq o w'. apply createTender_orderly.
  - apply verifyJWT_orderly. intros areq o w'. apply myTenders_orderly.
  - apply verifyJWT_orderly. intros areq o w'. apply others_orderly.
  - apply verifyJWT_orderly. intros areq o w'. apply apply_orderly.
  - apply verifyJWT_orderly. intros areq o w'. apply list_orderly.
  - apply verifyJWT_orderly. intros areq o w'. apply status_orderly.
  - apply verifyJWT_orderly. intros areq o w'. apply myApplications_orderly.
  - apply verifyJWT_orderly. intros areq o w'.
    apply myWithApplications_orderly.
  - apply verifyJWT_orderly. intros areq o w'. apply search_orderly.
Qed.

(** X16. No route removes or reorders a row: after any request the users
    and the tenders are the old ones followed by the new ones, the
    applications likewise with only their [status] possibly changed, and
    the uploaded files are kept. *)
Theorem rows_are_never_removed (e : Endpoint) (req : Req.t) (w : World) :
  grows (db w) (db (snd (route env e req w))).
Proof. apply route_orderly. Qed.

(** X17. A request makes at most three store calls, and a call that failed
    is the last one made: nothing is retried and nothing follows a failure. *)
Theorem a_failed_call_is_the_last_call (e : Endpoint) (req : Req.t)
  (w : World) :
  (length (new_calls w (snd (route env e req w))) <= 3)%nat
  /\ forall c, In c (tl (new_calls w (snd (route env e req w)))) ->
               succeeded c = true.
Proof.
  destruct (route_orderly e req w) as [_ [H1 [H2 _]]]. split; assumption.
Qed.

(** X18. Whenever a route answers 400, the world is as it was: no store
    call was made and no table changed. *)
Theorem a_400_is_answered_before_the_store (e : Endpoint) (req : Req.t)
  (w : World) :
  sent_status (fst (route env e req w)) = Some 400 ->
  snd (route env e req w) = w.
Proof. apply route_orderly. Qed.

(** Reading routes *)

Ltac unchanged := intros H; injection H as <- <-; reflexivity.

Lemma reading_route_cases (e : Endpoint) (req : Req.t) (w : World) :
  reads_only e = true ->
  (forall h : AuthRequest -> M Outcome,
     registered env e = Protected h ->
     forall areq o w', h areq w = (o, w') -> db w' = db w) ->
  (e = PostLogin -> db (snd (loginHandler env req w)) = db w) ->
  db (snd (route env e req w)) = db w.
Proof.
  intros Hr Hp Hl. unfold route.
  destruct (registered env e) as [h|h] eqn:Er.
  - destruct e; try discriminate Hr; try discriminate Er.
    injection Er as <-. apply Hl. reflexivity.
  - destruct (verifyJWT_run env req h w) as [E | [decoded E]].
    + rewrite E. reflexivity.
    + rewrite E. destruct (h (mkAuthRequest decoded req) w) as [o w'] eqn:Eh.
      apply (Hp h eq_refl _ _ _ Eh).
Qed.

(** X15. Login and every GET route leave all tables exactly as they were,
    whatever the request, the token and the outages. *)
Theorem reading_routes_leave_the_tables (e : Endpoint) (req : Req.t)
  (w : World) :
  reads_only e = true -> db (snd (route env e req w)) = db w.
Proof.
  intros Hr. apply reading_route_cases; [exact Hr| |].
  - intros h Er areq o w'.
    destruct e; try discriminate Hr; cbn [registered] in Er;
      try discriminate Er; injection Er as <-.
    + unfold meHandler, bind, store_call, ret. split_run; unchanged.
    + unfold myTendersHandler, bind, store_call, ret. cbv zeta.
      split_run; unchanged.
    + unfold othersTendersHandler, bind, store_call, ret. cbv zeta.
      split_run; unchanged.
    + unfold listApplicationsHandler, bind, store_call, ret. cbv zeta.
      split_run; unchanged.
    + unfold myApplicationsHandler, bind, store_call, ret. cbv zeta.
      split_run; unchanged.
    + unfold myWithApplicationsHandler, bind, store_call, ret. cbv zeta.
      split_run; unchanged.
    + unfold searchHandler, bind, store_call, ret. cbv zeta.
      split_run; unchanged.
  - intros _. destruct (loginHandler env req w) as [o w'] eqn:E. revert E.
    unfold loginHandler, unexpected_catch, JwtLib.sign, bind, store_call, ret,
    dateNow.
    cbv zeta. split_run; unchanged.
Qed.

End Order.

(** ** Round trips through the store *)

Lemma truthy_some (s : string) :
  s <> EmptyString -> Js.truthy_str (Some s) = true.
Proof.
  intros H. cbn. destruct (String.eqb_spec s EmptyString); [contradiction|].
  reflexivity.
Qed.

Lemma tenders_by_id_unique (t : Tender.t) (d : Db) :
  NoDup (map Tender.id (tenders d)) -> In t (tenders d) ->
  tenders_by_id (Tender.id t) d = [t].
Proof. apply (filter_key_unique Tender.id). Qed.

Lemma applications_by_id_unique (a : Application.t) (d : Db) :
  NoDup (map Application.id (applications d)) -> In a (applications d) ->
  applications_by_id (Application.id a) d = [a].
Proof. apply (filter_key_unique Application.id). Qed.

(** ** Applying *)

Lemma apply_run (req : AuthRequest) (w : World) :
  let proposal := Body.proposal_text (Req.body (request req)) in
  (Js.truthy_str proposal = false ->
   applyHandler req w
   = (Sent (message_response 400 "Missing required fields"), w))
  /\ (Js.truthy_str proposal = true ->
      Req.params_id (request req) <> EmptyString ->
      userId (user req) <> EmptyString ->
      calm 1 w = true ->
      fst (applyHandler req w)
      = Sent (message_response 201 "Application submitted successfully")
      /\ applications (db (snd (applyHandler req w)))
         = applications (db w)
           ++ [Application.mk (fresh_id (db w)) (Req.params_id (request req))
                 (userId (user req)) (value proposal) None (now w)]
      /\ tenders (db (snd (applyHandler req w))) = tenders (db w)).
Proof.
  intros proposal. unfold applyHandler. cbv zeta. fold proposal. split.
  - intros H. rewrite H. reflexivity.
  - intros Hp Hid Hu Hc. rewrite Hp, (truthy_some _ Hid), (truthy_some _ Hu).
    cbn [negb orb]. unfold bind, dateNow.
    rewrite (store_call_calm _ _ _ _ 0 Hc). cbn. repeat split.
Qed.


Lemma owner_lists_applications (req : AuthRequest) (w : World) (t : Tender.t) :
  calm 2 w = true ->
  NoDup (map Tender.id (tenders (db w))) ->
  In t (tenders (db w)) ->
  Tender.id t = Req.params_id (request req) ->
  Tender.creator_id t = userId (user req) ->
  fst (listApplicationsHandler req w)
  = Sent (mkResponse 200
            (JObj [("applications",
                    JArr (map application_json
                            (applications_of_tender
                               (Req.params_id (request req)) (db w))))])).
Proof.
  intros Hc Huniq Hin Hid Hown. unfold listApplicationsHandler, bind.
  cbv zeta. rewrite (store_call_calm _ _ _ _ 1 Hc). unfold reading.
  cbn [fst snd]. rewrite <- Hid.
  rewrite (tenders_by_id_unique t _ Huniq Hin). cbn [maybeSingle is_data].
  rewrite Hown, String.eqb_refl. cbn [negb].
  rewrite (store_call_calm _ _ _ _ 0) by (apply (calm_next 1 w _ _ Hc)).
  reflexivity.
Qed.

(** X11. After a successful apply on a stored tender, the tender's creator
    listing the applications on it gets the new application, only
    applications on that tender, newest first, and none of the listed rows
    has a [status] member. *)
Theorem an_application_reaches_the_owner (applicant owner : AuthRequest)
  (w : World) (t : Tender.t) :
  let proposal := Body.proposal_text (Req.body (request applicant)) in
  let w' := snd (applyHandler applicant w) in
  let T := Req.params_id (request applicant) in
  Js.truthy_str proposal = true ->
  T <> EmptyString ->
  userId (user applicant) <> EmptyString ->
  calm 1 w = true ->
  calm 2 w' = true ->
  Req.params_id (request owner) = T ->
  NoDup (map Tender.id (tenders (db w))) ->
  In t (tenders (db w)) ->
  Tender.id t = T ->
  Tender.creator_id t = userId (user owner) ->
  exists listed,
    fst (listApplicationsHandler owner w')
    = Sent (mkResponse 200
              (JObj [("applications", JArr (map application_json listed))]))
    /\ In (Application.mk (fresh_id (db w)) T (userId (user applicant))
             (value proposal) None (now w)) listed
    /\ (forall a, In a listed -> Application.tender_id a = T)
    /\ newest_first Application.created_at listed
    /\ Forall (fun row => member "status" row = None)
         (map application_json listed).
Proof.
  intros proposal w' T Hp HT Hu Hc Hc' HT' Huniq Hin Hid Hown.
  destruct (proj2 (apply_run applicant w) Hp HT Hu Hc)
    as [_ [Happs Htenders]].
  fold w' in Happs, Htenders. fold proposal in Happs. fold T in Happs.
  exists (applications_of_tender T (db w')).
  split; [|split; [|split; [|split]]].
  - rewrite <- HT'. apply (owner_lists_applications owner w' t Hc').
    + rewrite Htenders. exact Huniq.
    + rewrite Htenders. exact Hin.
    + rewrite HT'. exact Hid.
    + exact Hown.
  - unfold applications_of_tender. apply order_desc_In, filter_In.
    rewrite Happs. split.
    + apply in_or_app. right. left. reflexivity.
    + cbn. apply String.eqb_refl.
  - intros a Ha. unfold applications_of_tender in Ha.
    apply order_desc_In, filter_In in Ha as [_ Ha].
    apply String.eqb_eq. exact Ha.
  - apply order_desc_sorted.
  - apply Forall_forall. intros row Hrow.
    apply in_map_iff in Hrow as [a [<- _]]. reflexivity.
Qed.

(** ** Deciding an application *)

Lemma owner_update_run (req : AuthRequest) (w : World) (st : string)
  (a : Application.t) (t : Tender.t) :
  Body.status (Req.body (request req)) = Some (JStr st) ->
  st = "accepted" \/ st = "rejected" ->
  calm 3 w = true ->
  NoDup (map Application.id (applications (db w))) ->
  In a (applications (db w)) ->
  Application.id a = Req.params_id (request req) ->
  NoDup (map Tender.id (tenders (db w))) ->
  In t (tenders (db w)) ->
  Tender.id t = Application.tender_id a ->
  Tender.creator_id t = userId (user req) ->
  let w' := snd (updateStatusHandler req w) in
  fst (updateStatusHandler req w)
  = Sent (mkResponse 200
            (JObj [("success", JBool true);
                   ("message", JStr ("Application " ++ st)%string)]))
  /\ In (set_status st a) (applications (db w'))
  /\ (forall x, In x (applications (db w)) ->
                Application.id x <> Application.id a ->
                In x (applications (db w')))
  /\ map frozen (applications (db w')) = map frozen (applications (db w))
  /\ users (db w') = users (db w)
  /\ tenders (db w') = tenders (db w).
Proof.
  intros Hbody Hst Hc Hua Hina Hida Hut Hint Hidt Hown w'.
  assert (valid_status (Body.status (Req.body (request req))) = Some st) as Hv.
  { rewrite Hbody. destruct Hst as [-> | ->]; reflexivity. }
  assert (updateStatusHandler req w
          = (Sent (mkResponse 200
                     (JObj [("success", JBool true);
                            ("message", JStr ("Application " ++ st)%string)])),
             mkWorld (snd (update_status (Application.id a) st (db w)))
               (now w) (tl (tl (tl (faults w))))
               (mkCall Applications Update true
                :: mkCall Tenders Select true
                :: mkCall Applications Select true :: log w))) as E.
  { unfold updateStatusHandler, bind. cbv zeta. rewrite Hv.
    rewrite (store_call_calm _ _ _ _ 2 Hc). unfold reading. cbn [fst snd].
    rewrite <- Hida. rewrite (applications_by_id_unique a _ Hua Hina).
    cbn [maybeSingle is_data].
    pose proof (calm_next 2 w (db w)
                  (mkCall Applications Select true :: log w) Hc) as Hc1.
    rewrite (store_call_calm _ _ _ _ 1 Hc1). cbn [fst snd db].
    rewrite <- Hidt. rewrite (tenders_by_id_unique t _ Hut Hint).
    cbn [maybeSingle is_data]. rewrite Hown, String.eqb_refl. cbn [negb].
    pose proof (calm_next 1 _ (db w)
                  (mkCall Tenders Select true
                   :: mkCall Applications Select true :: log w) Hc1) as Hc2.
    rewrite (store_call_calm _ _ _ _ 0 Hc2). reflexivity. }
  unfold w'. rewrite E. cbn [fst snd db update_status applications users
                               tenders].
  split; [reflexivity|]. split; [|split; [|split; [|split]]].
  - apply in_map_iff. exists a. rewrite String.eqb_refl. split;
      [reflexivity | exact Hina].
  - intros x Hx Hne. apply in_map_iff. exists x.
    apply String.eqb_neq in Hne. rewrite Hne. split; [reflexivity | exact Hx].
  - apply frozen_update.
  - reflexivity.
  - reflexivity.
Qed.

(** X12. When the creator of an application's tender sends a valid status,
    the answer is 200 'Application <status>' whatever the current status of
    the application is; the application then carries the new status, every
    other application is as it was, no other column of any application has
    changed, and users and tenders are untouched. *)
Theorem the_owner_decides (req : AuthRequest) (w : World) (st : string)
  (a : Application.t) (t : Tender.t) :
  Body.status (Req.body (request req)) = Some (JStr st) ->
  st = "accepted" \/ st = "rejected" ->
  calm 3 w = true ->
  NoDup (map Application.id (applications (db w))) ->
  In a (applications (db w)) ->
  Application.id a = Req.params_id (request req) ->
  NoDup (map Tender.id (tenders (db w))) ->
  In t (tenders (db w)) ->
  Tender.id t = Application.tender_id a ->
  Tender.creator_id t = userId (user req) ->
  let w' := snd (updateStatusHandler req w) in
  fst (updateStatusHandler req w)
  = Sent (mkResponse 200
            (JObj [("success", JBool true);
                   ("message", JStr ("Application " ++ st)%string)]))
  /\ In (set_status st a) (applications (db w'))
  /\ (forall x, In x (applications (db w)) ->
                Application.id x <> Application.id a ->
                In x (applications (db w')))
  /\ map frozen (applications (db w')) = map frozen (applications (db w))
  /\ users (db w') = users (db w)
  /\ tenders (db w') = tenders (db w).
Proof. exact (owner_update_run req w st a t). Qed.

Lemma joined_tender_unique (d : Db) (a : Application.t) (t : Tender.t) :
  NoDup (map Tender.id (tenders d)) ->
  In t (tenders d) ->
  Tender.id t = Application.tender_id a ->
  joined_tender d a
  = JObj [("title", JStr (Tender.title t));
          ("deadline", JStr (Tender.deadline t))].
Proof.
  intros Hu Hin Hid. unfold joined_tender. rewrite <- Hid.
  rewrite (tenders_by_id_unique t d Hu Hin). reflexivity.
Qed.

(** X13. After the owner's decision, the applicant's 'my applications'
    contains the application with the decided status, joined with the title
    and deadline of its tender. *)
Theorem the_applicant_sees_the_decision (owner applicant : AuthRequest)
  (w : World) (st : string) (a : Application.t) (t : Tender.t) :
  Body.status (Req.body (request owner)) = Some (JStr st) ->
  st = "accepted" \/ st = "rejected" ->
  calm 3 w = true ->
  NoDup (map Application.id (applications (db w))) ->
  In a (applications (db w)) ->
  Application.id a = Req.params_id (request owner) ->
  NoDup (map Tender.id (tenders (db w))) ->
  In t (tenders (db w)) ->
  Tender.id t = Application.tender_id a ->
  Tender.creator_id t = userId (user owner) ->
  userId (user applicant) = Application.applicant_id a ->
  let w' := snd (updateStatusHandler owner w) in
  calm 1 w' = true ->
  exists rows,
    fst (myApplicationsHandler applicant w')
    = Sent (mkResponse 200 (JObj [("applications", JArr rows)]))
    /\ In (JObj [("id", JStr (Application.id a));
                 ("proposal_text", JStr (Application.proposal_text a));
                 ("status", JStr st);
                 ("created_at", JInt (Application.created_at a));
                 ("tender_id", JStr (Application.tender_id a));
                 ("tenders",
                  JObj [("title", JStr (Tender.title t));
                        ("deadline", JStr (Tender.deadline t))])]) rows.
Proof.
  intros Hbody Hst Hc Hua Hina Hida Hut Hint Hidt Hown Happ w' Hc'.
  destruct (owner_update_run owner w st a t Hbody Hst Hc Hua Hina Hida Hut
              Hint Hidt Hown) as [_ [Hin' [_ [_ [_ Ht]]]]].
  fold w' in Hin', Ht.
  exists (map (my_application_json (db w'))
            (applications_of_applicant (userId (user applicant)) (db w'))).
  split.
  - unfold myApplicationsHandler, bind. cbv zeta.
    rewrite (store_call_calm _ _ _ _ 0 Hc'). reflexivity.
  - apply in_map_iff. exists (set_status st a). split.
    + unfold my_application_json.
      rewrite (joined_tender_unique (db w') (set_status st a) t);
        [reflexivity | rewrite Ht; exact Hut | rewrite Ht; exact Hint
        | exact Hidt].
    + unfold applications_of_applicant. apply order_desc_In, filter_In.
      split; [exact Hin'|]. cbn. rewrite Happ. apply String.eqb_refl.
Qed.

(** ** Creating a tender *)

(** X9. A valid Create Tender request answers 201 and appends one tender
    with the request's fields, the caller as [creator_id] and the time of
    insertion; from then on that tender is in its creator's 'my tenders' and
    not in their 'others', and for any other reader it is the reverse. *)
Theorem a_created_tender_is_mine (req : AuthRequest) (w : World) :
  let b := Req.body (request req) in
  let w' := snd (createTenderHandler req w) in
  let row :=
    Tender.mk (fresh_id (db w)) (value (Body.title b))
      (value (Body.description b)) (number (Body.budget b))
      (value (Body.deadline b)) (userId (user req)) (now w) in
  Js.truthy_str (Body.title b) = true ->
  Js.truthy_str (Body.description b) = true ->
  Js.truthy_num (Body.budget b) = true ->
  Js.truthy_str (Body.deadline b) = true ->
  calm 1 w = true ->
  fst (createTenderHandler req w)
  = Sent (mkResponse 201
            (JObj [("success", JBool true);
                   ("message", JStr "Tender created")]))
  /\ tenders (db w') = tenders (db w) ++ [row]
  /\ forall reader : AuthRequest,
      calm 1 w' = true ->
      exists mine others,
        fst (myTendersHandler reader w')
        = Sent (mkResponse 200
                  (JObj [("success", JBool true);
                         ("tenders", JArr (map tender_json mine))]))
        /\ fst (othersTendersHandler reader w')
           = Sent (mkResponse 200
                     (JObj [("tenders", JArr (map tender_json others))]))
        /\ (userId (user reader) = userId (user req) ->
            In row mine /\ ~ In row others)
        /\ (userId (user reader) <> userId (user req) ->
            In row others /\ ~ In row mine).
Proof.
  intros b w' row Ht Hd Hb Hdl Hc.
  assert (createTenderHandler req w
          = (Sent (mkResponse 201
                     (JObj [("success", JBool true);
                            ("message", JStr "Tender created")])),
             mkWorld
               (mkDb (users (db w)) (tenders (db w) ++ [row])
                  (applications (db w)) (logos (db w)) (S (next_id (db w))))
               (now w) (tl (faults w))
               (mkCall Tenders Insert true :: log w))) as E.
  { unfold createTenderHandler. cbv zeta. fold b. rewrite Ht, Hd, Hb, Hdl.
    cbn [negb orb]. unfold bind, dateNow.
    rewrite (store_call_calm _ _ _ _ 0 Hc). reflexivity. }
  unfold w'. rewrite E. cbn [fst snd db tenders].
  split; [reflexivity|]. split; [reflexivity|].
  intros reader Hc'.
  set (w1 := mkWorld _ _ _ _) in *.
  exists (tenders_of (userId (user reader)) (db w1)),
         (tenders_not_of (userId (user reader)) (db w1)).
  assert (In row (tenders (db w1))) as Hrow
    by (cbn; apply in_or_app; right; left; reflexivity).
  split; [|split; [|split]].
  - unfold myTendersHandler, bind. cbv zeta.
    rewrite (store_call_calm _ _ _ _ 0 Hc'). reflexivity.
  - unfold othersTendersHandler, bind. cbv zeta.
    rewrite (store_call_calm _ _ _ _ 0 Hc'). reflexivity.
  - intros Hsame. unfold tenders_of, tenders_not_of. split.
    + apply order_desc_In, filter_In. split; [exact Hrow|].
      cbn. rewrite Hsame. apply String.eqb_refl.
    + intros Hin. apply order_desc_In, filter_In in Hin as [_ Hin].
      cbn in Hin. rewrite Hsame, String.eqb_refl in Hin. discriminate.
  - intros Hdiff. unfold tenders_of, tenders_not_of. split.
    + apply order_desc_In, filter_In. split; [exact Hrow|].
      cbn. apply negb_true_iff, String.eqb_neq. intros E'. apply Hdiff.
      symmetry. exact E'.
    + intros Hin. apply order_desc_In, filter_In in Hin as [_ Hin].
      cbn in Hin. apply String.eqb_eq in Hin. apply Hdiff. symmetry.
      exact Hin.
Qed.

(** ** Signing up, then logging in *)

Section Accounts.
Context {ext : External}.
Variable env : Env.

Lemma login_succeeds (req : Req.t) (w : World) (u : User.t) :
  Js.truthy_str (Body.email (Req.body req)) = true ->
  Js.truthy_str (Body.password (Req.body req)) = true ->
  calm 1 w = true ->
  unique_emails (db w) ->
  In u (users (db w)) ->
  User.email u = value (Body.email (Req.body req)) ->
  bcrypt_compare (value (Body.password (Req.body req))) (User.password u)
  = true ->
  JWT_SECRET env <> EmptyString ->
  fst (loginHandler env req w)
  = Sent (mkResponse 200
            (JObj [("success", JBool true);
                   ("token",
                    JStr (JwtLib.signed
                            (mkAuthUser (User.id u) (User.email u))
                            (JWT_SECRET env) JwtLib.expiresIn_1h
                            (now w / 1000)))])).
Proof.
  intros He Hp Hc Huniq Hin Hmail Hcmp Hsecret. unfold loginHandler. cbv zeta.
  rewrite He, Hp. cbn [negb orb]. unfold bind.
  rewrite (store_call_calm _ _ _ _ 0 Hc). unfold reading. cbn [fst snd].
  rewrite <- Hmail. rewrite (users_by_email_unique _ _ Huniq Hin).
  cbn [maybeSingle]. rewrite Hmail, Hcmp. cbn [negb]. unfold bind, dateNow.
  rewrite (sign_with_secret _ _ _ Hsecret). reflexivity.
Qed.

(** X2. After a signup that created a user, a login with the same e-mail
    address and password answers 200 with a token for the created user,
    provided [bcrypt.compare] accepts a password against its own hash and
    the server has a signing secret. *)
Theorem a_new_user_can_log_in (signup login : Req.t) (w : World) :
  let b := Req.body signup in
  let w' := snd (signupHandler signup w) in
  Forall (fun v => Js.truthy_str v = true) (signup_fields b) ->
  calm 3 w = true ->
  unique_emails (db w) ->
  (forall u, In u (users (db w)) -> User.email u <> value (Body.email b)) ->
  Body.email (Req.body login) = Body.email b ->
  Body.password (Req.body login) = Body.password b ->
  bcrypt_compare (value (Body.password b))
    (bcrypt_hash (value (Body.password b))) = true ->
  JWT_SECRET env <> EmptyString ->
  calm 1 w' = true ->
  exists created,
    fst (signupHandler signup w)
    = Sent (mkResponse 201
              (JObj [("success", JBool true);
                     ("data", user_public_json created)]))
    /\ fst (loginHandler env login w')
       = Sent (mkResponse 200
                 (JObj [("success", JBool true);
                        ("token",
                         JStr (JwtLib.signed
                                 (mkAuthUser (User.id created)
                                    (value (Body.email b)))
                                 (JWT_SECRET env) JwtLib.expiresIn_1h
                                 (now w' / 1000)))])).
Proof.
  intros b w' Hf Hc Huniq Habs Hmail Hpw Hcmp Hsecret Hc'.
  destruct (signup_new_email signup w Hf Hc Habs)
    as [created [E1 [E2 [E3 E4]]]].
  fold w' in E2. fold b in E3, E4.
  exists created. split; [exact E1|].
  rewrite <- E3.
  apply login_succeeds.
  - rewrite Hmail. apply (proj1 (Forall_forall _ _) Hf).
    right. left. reflexivity.
  - rewrite Hpw. apply (proj1 (Forall_forall _ _) Hf).
    right. right. left. reflexivity.
  - exact Hc'.
  - apply signup_keeps_emails_unique. exact Huniq.
  - rewrite E2. apply in_or_app. right. left. reflexivity.
  - rewrite Hmail. exact E3.
  - rewrite Hpw, E4. exact Hcmp.
  - exact Hsecret.
Qed.

(** ** The logo of a new user *)

Lemma split_nonempty (sep : ascii) (s : string) : Js.split sep s <> [].
Proof.
  destruct s as [|c s]; cbn [Js.split]; [discriminate|].
  destruct (Ascii.eqb c sep); [discriminate|].
  destruct (Js.split sep s); discriminate.
Qed.

Lemma split_single (sep : ascii) (s piece : string) :
  Js.split sep s = [piece] -> piece = s.
Proof.
  revert piece. induction s as [|c s IH]; cbn [Js.split]; intros piece H.
  - injection H as <-. reflexivity.
  - destruct (Ascii.eqb c sep).
    + injection H as _ H. contradiction (split_nonempty sep s H).
    + destruct (Js.split sep s) as [|p ps] eqn:E.
      * contradiction (split_nonempty sep s E).
      * injection H as <- ->. rewrite (IH p eq_refl). reflexivity.
Qed.

Lemma extension_of (sep : ascii) (name : string) :
  exists suffix,
    Js.pop (Js.split sep name) = Some suffix
    /\ contains_char sep suffix = false
    /\ exists before, name = (before ++ suffix)%string.
Proof.
  induction name as [|c name [suffix [Hpop [Hno [before Hname]]]]].
  - exists EmptyString. repeat split. exists EmptyString. reflexivity.
  - cbn [Js.split]. destruct (Ascii.eqb c sep) eqn:Ec.
    + exists suffix. split; [|split].
      * destruct (Js.split sep name) as [|p ps] eqn:Es; [discriminate Hpop|].
        exact Hpop.
      * exact Hno.
      * exists (String c before). rewrite Hname at 1. reflexivity.
    + destruct (Js.split sep name) as [|p ps] eqn:Es; [discriminate Hpop|].
      destruct ps as [|p' ps'].
      * cbn in Hpop. injection Hpop as ->.
        apply split_single in Es. subst suffix.
        exists (String c name). split; [reflexivity|]. split.
        -- cbn. rewrite Ec, Hno. reflexivity.
        -- exists EmptyString. reflexivity.
      * exists suffix. split; [exact Hpop|]. split; [exact Hno|].
        exists (String c before). rewrite Hname at 1. reflexivity.
Qed.

(** X6. A signup that creates a user stores, with a file, the file under
    [logos/<Date.now()>.<ext>], where [ext] is what follows the last dot of
    the file's name (the whole name when it has no dot), and sets the user's
    [logo] to the public URL of that path; without a file the [logo] is the
    empty string and nothing is uploaded. *)
Theorem signup_stores_the_logo (req : Req.t) (w : World) :
  let b := Req.body req in
  let w' := snd (signupHandler req w) in
  Forall (fun v => Js.truthy_str v = true) (signup_fields b) ->
  calm 3 w = true ->
  (forall u, In u (users (db w)) -> User.email u <> value (Body.email b)) ->
  exists created,
    users (db w') = users (db w) ++ [created]
    /\ match Req.file req with
       | None =>
           User.logo created = EmptyString /\ logos (db w') = logos (db w)
       | Some f =>
           exists suffix,
             Js.pop (Js.split "." (originalname f)) = Some suffix
             /\ contains_char "." suffix = false
             /\ (exists before, originalname f = (before ++ suffix)%string)
             /\ User.logo created
                = publicUrl
                    ("logos/" ++ NilZero.string_of_int (Z.to_int (now w))
                     ++ "." ++ suffix)%string
             /\ logos (db w')
                = (("logos/" ++ NilZero.string_of_int (Z.to_int (now w))
                    ++ "." ++ suffix)%string, mimetype f) :: logos (db w)
       end.
Proof.
  intros b w' Hf Hc Habs. unfold w', signupHandler. cbv zeta. fold b.
  rewrite (signup_guard_passes _ Hf).
  unfold signup_logo, bind, store_call, dateNow, ret, reading, insert_user,
    upload_logo.
  rewrite (users_by_email_absent _ _ Habs). unfold calm in Hc.
  destruct (Req.file req) as [f|].
  - destruct (extension_of "." (originalname f))
      as [suffix [Hpop [Hno Hname]]].
    rewrite Hpop.
    destruct (faults w) as [|[e|] [|[e'|] [|[e''|] later]]];
      try discriminate Hc; cbn; eexists; (split; [reflexivity|]);
      exists suffix; repeat split; assumption.
  - destruct (faults w) as [|[e|] [|[e'|] later]];
      try discriminate Hc; cbn; eexists; repeat split.
Qed.

(** X7. When the check for an existing user succeeds and the logo upload
    fails, signup answers 500, makes no further call and leaves every table
    as it was: no user is created. *)
Theorem a_failed_upload_stores_no_user (req : Req.t) (w : World)
  (f : UploadedFile) (e : JsError) (later : list (option JsError)) :
  let b := Req.body req in
  let w' := snd (signupHandler req w) in
  Forall (fun v => Js.truthy_str v = true) (signup_fields b) ->
  (forall u, In u (users (db w)) -> User.email u <> value (Body.email b)) ->
  Req.file req = Some f ->
  faults w = None :: Some e :: later ->
  sent_status (fst (signupHandler req w)) = Some 500
  /\ db w' = db w
  /\ new_calls w w'
     = [mkCall LogoBucket Upload false; mkCall Users Select true].
Proof.
  intros b w' Hf Habs Hfile Hfaults.
  assert (signupHandler req w
          = (signup_catch e,
             mkWorld (db w) (now w) later
               (mkCall LogoBucket Upload false
                :: mkCall Users Select true :: log w))) as E.
  { unfold signupHandler. cbv zeta. fold b.
    rewrite (signup_guard_passes _ Hf).
    unfold signup_logo, bind, store_call, dateNow, ret, reading.
    rewrite (users_by_email_absent _ _ Habs), Hfile, Hfaults. reflexivity. }
  unfold w'. rewrite E. cbn [fst snd db].
  rewrite (new_calls_app w _ [mkCall LogoBucket Upload false;
                              mkCall Users Select true]) by reflexivity.
  unfold signup_catch. destruct (instanceofError e); repeat split.
Qed.

End Accounts.

(** ** The caller's profile *)

(** X8. With the store answering, GET /me returns the seven public members
    of the caller's user row and no [password] member, and answers 404 when
    no row has the caller's id. *)
Theorem me_returns_the_public_profile (req : AuthRequest) (w : World) :
  calm 1 w = true ->
  (forall u, NoDup (map User.id (users (db w))) ->
             In u (users (db w)) ->
             User.id u = userId (user req) ->
             fst (meHandler req w)
             = Sent (mkResponse 200
                       (JObj [("success", JBool true);
                              ("user", user_public_json u)]))
             /\ keys (user_public_json u) = public_fields
             /\ member "password" (user_public_json u) = None)
  /\ ((forall u, In u (users (db w)) -> User.id u <> userId (user req)) ->
      fst (meHandler req w) = Sent (message_response 404 "User not found")).
Proof.
  intros Hc. unfold meHandler, bind.
  rewrite (store_call_calm _ _ _ _ 0 Hc). unfold reading, users_by_id.
  cbn [fst snd]. split.
  - intros u Hu Hin Hid. rewrite <- Hid.
    rewrite (filter_key_unique User.id u _ Hu Hin). repeat split.
  - intros Habs. rewrite (filter_key_absent User.id _ _ Habs). reflexivity.
Qed.

(** ** Tenders with their applications *)

(** X19. With the store answering, 'my tenders with applications' lists
    exactly the caller's tenders, newest first, each carrying exactly the
    stored applications on that tender. *)
Theorem my_tenders_carry_their_applications (req : AuthRequest) (w : World) :
  calm 1 w = true ->
  exists mine,
    fst (myWithApplicationsHandler req w)
    = Sent (mkResponse 200
              (JObj [("tenders",
                      JArr (map (tender_with_applications_json (db w))
                              mine))]))
    /\ (forall t, In t mine <->
                  In t (tenders (db w))
                  /\ Tender.creator_id t = userId (user req))
    /\ newest_first Tender.created_at mine
    /\ forall t, In t mine ->
        exists nested,
          member "applications" (tender_with_applications_json (db w) t)
          = Some (JArr (map application_nested_json nested))
          /\ forall a, In a nested <->
                       In a (applications (db w))
                       /\ Application.tender_id a = Tender.id t.
Proof.
  intros Hc. exists (tenders_of (userId (user req)) (db w)).
  split; [|split; [|split]].
  - unfold myWithApplicationsHandler, bind. cbv zeta.
    rewrite (store_call_calm _ _ _ _ 0 Hc). reflexivity.
  - intros t. unfold tenders_of. rewrite order_desc_In, filter_In.
    rewrite String.eqb_eq. reflexivity.
  - apply order_desc_sorted.
  - intros t _. eexists. split; [reflexivity|].
    intros a. rewrite filter_In, String.eqb_eq. reflexivity.
Qed.

(** ** The concrete collaborators *)

Lemma get_put_string (s rest : string) :
  Fixture.get_string (Fixture.put_string s rest) = Some (s, rest).
Proof.
  induction s as [|c s IH]; simpl.
  - reflexivity.
  - rewrite IH. reflexivity.
Qed.

Lemma get_put_pos (p : positive) (rest : string) :
  Fixture.get_pos (Fixture.put_pos p rest) = Some (p, rest).
Proof.
  induction p as [p IH|p IH|]; simpl; try rewrite IH; reflexivity.
Qed.

Lemma get_put_Z (z : Z) (rest : string) :
  Fixture.get_Z (Fixture.put_Z z rest) = Some (z, rest).
Proof.
  destruct z; simpl; try rewrite get_put_pos; reflexivity.
Qed.

Lemma decode_encode (tk : Jwt.Token) :
  Fixture.decode (Fixture.encode tk) = Some tk.
Proof.
  destruct tk as [[[uid mail] i e] sig].
  unfold Fixture.decode, Fixture.encode, Fixture.put_claims. simpl.
  rewrite !get_put_string, !get_put_Z, get_put_string. reflexivity.
Qed.


(** ** The claims on concrete requests *)

Import Fixture.

Lemma status_update_tells_missing_applications_apart :
  Tender.creator_id roof <> User.id bob
  /\ Application.tender_id proposal = Tender.id roof
  /\ sent_status
       (fst (updateStatusHandler
               (as_user bob (with_status "a1" (Some (JStr "accepted"))))
               (quiet market 0))) = Some 403
  /\ sent_status
       (fst (updateStatusHandler
               (as_user bob (with_status "a9" (Some (JStr "accepted"))))
               (quiet market 0))) = Some 404.
Proof.
  split; [discriminate|]. repeat split.
Qed.


Lemma market_emails_unique : unique_emails market.
Proof.
  unfold unique_emails. simpl.
  constructor; [|constructor; [|constructor]]; simpl; intuition discriminate.
Defined.

Lemma non_owners_are_refused_witness :
  sent_status
    (fst (listApplicationsHandler (as_user bob (get "t1" None))
            (quiet market 0))) = Some 403
  /\ fst (updateStatusHandler
            (as_user bob (with_status "a1" (Some (JStr "rejected"))))
            (quiet market 0))
     = Sent (message_response 403 "Unauthorized")
  /\ fst (updateStatusHandler
            (as_user bob (with_status "a9" (Some (JStr "rejected"))))
            (quiet market 0))
     = Sent (message_response 404 "Application not found").
Proof.
  split; [|split].
  - apply (non_owners_are_refused (as_user bob (get "t1" None))
             (quiet market 0)).
    intros t [<-|[<-|[<-|[]]]]; simpl; intros; discriminate.
  - apply (proj1 (proj2 (non_owners_are_refused
             (as_user bob (with_status "a1" (Some (JStr "rejected"))))
             (quiet market 0)))) with (a := proposal).
    + right. reflexivity.
    + reflexivity.
    + simpl. constructor; [intros []|constructor].
    + left. reflexivity.
    + reflexivity.
    + intros t [<-|[<-|[<-|[]]]]; simpl; intros; discriminate.
  - apply (proj2 (proj2 (non_owners_are_refused
             (as_user bob (with_status "a9" (Some (JStr "rejected"))))
             (quiet market 0)))).
    + right. reflexivity.
    + intros a [<-|[]]. simpl. discriminate.
Defined.

Lemma protected_routes_are_gated_witness :
  fst (route (ext := collaborators) env GetMe (get EmptyString None) (quiet market 0))
  = Sent (message_response 401 "Missing token")
  /\ fst (route (ext := collaborators) env GetMe (bearer "junk")
            (quiet market 0))
     = Sent (message_response 403 "Invalid or expired token")
  /\ sent_status
       (fst (route (ext := collaborators) env GetMe (bearer alice_token)
               (quiet market 0))) = Some 200.
Proof.
  destruct (protected_routes_are_gated (ext := collaborators) env GetMe
              eq_refl) as [h [Hreg [Hroute H]]].
  injection Hreg as <-.
  rewrite !Hroute. split; [|split].
  - destruct (H meHandler (get EmptyString None) (quiet market 0)) as [H401 _].
    rewrite H401; [reflexivity | left; reflexivity].
  - destruct (H meHandler (bearer "junk") (quiet market 0)) as [_ [H403 _]].
    rewrite (H403 "Bearer junk" Jwt.JwtMalformed); reflexivity.
  - destruct (H meHandler (bearer alice_token) (quiet market 0))
      as [_ [_ Hok]].
    rewrite (Hok ("Bearer " ++ alice_token)%string
               (mkAuthUser "u1" "alice@acme.test")); reflexivity.
Defined.

(** A login at 999 ms gets a token that is refused at 3600000 ms, which is
    before the hour is over. *)
Lemma token_refused_within_the_hour :
  fst (loginHandler (ext := collaborators) env
         (login_body "alice@acme.test" "wonderland") (quiet market 999))
  = Sent (mkResponse 200
            (JObj [("success", JBool true); ("token", JStr alice_token)]))
  /\ 3600000 < 999 + 60 * 60 * 1000
  /\ verifyJWT (ext := collaborators) env (bearer alice_token) meHandler
       (quiet market 3600000)
     = (Sent (message_response 403 "Invalid or expired token"),
        quiet market 3600000).
Proof.
  repeat split.
Qed.

Lemma login_token_lifetime_witness :
  sent_status
    (fst (verifyJWT (ext := collaborators) env (bearer alice_token) meHandler
            (quiet market (999 + 59 * 60 * 1000)))) = Some 200
  /\ sent_status
       (fst (verifyJWT (ext := collaborators) env (bearer alice_token)
               meHandler (quiet market (999 + 61 * 60 * 1000)))) = Some 403.
Proof.
  split.
  - destruct (login_token_lifetime (ext := collaborators) env
                (login_body "alice@acme.test" "wonderland")
                (bearer alice_token) (quiet market 999)
                (quiet market (999 + 59 * 60 * 1000)) alice_token meHandler
                decode_encode eq_refl eq_refl eq_refl)
      as [u [Hin [Hmail [_ [_ [Hok _]]]]]].
    rewrite (Hok eq_refl).
    destruct Hin as [<-|[<-|[]]]; [reflexivity | discriminate Hmail].
  - destruct (login_token_lifetime (ext := collaborators) env
                (login_body "alice@acme.test" "wonderland")
                (bearer alice_token) (quiet market 999)
                (quiet market (999 + 61 * 60 * 1000)) alice_token meHandler
                decode_encode eq_refl eq_refl eq_refl)
      as [u [_ [_ [_ [_ [_ [Hlate _]]]]]]].
    rewrite (Hlate eq_refl). reflexivity.
Defined.

Lemma login_failures_are_identical_witness :
  fst (loginHandler (ext := collaborators) env
         (login_body "nobody@nowhere.test" "guess") (quiet market 0))
  = fst (loginHandler (ext := collaborators) env
           (login_body "alice@acme.test" "guess") (quiet market 0)).
Proof.
  apply (login_failures_are_identical (ext := collaborators) env
           (login_body "nobody@nowhere.test" "guess")
           (login_body "alice@acme.test" "guess")
           (quiet market 0) (quiet market 0) alice);
    try reflexivity.
  - intros x [<-|[<-|[]]]; discriminate.
  - exact market_emails_unique.
  - left. reflexivity.
Defined.

Lemma invalid_status_rejected_before_the_store_witness :
  updateStatusHandler (as_user alice (with_status "a1" (Some (JStr "maybe"))))
    (quiet market 0)
  = (Sent (message_response 400 "Invalid status"), quiet market 0)
  /\ updateStatusHandler (as_user alice (with_status "a1" None))
       (quiet market 0)
     = (Sent (message_response 400 "Invalid status"), quiet market 0).
Proof.
  split.
  - apply (invalid_status_rejected_before_the_store
             (as_user alice (with_status "a1" (Some (JStr "maybe"))))
             (quiet market 0)); discriminate.
  - apply (invalid_status_rejected_before_the_store
             (as_user alice (with_status "a1" None)) (quiet market 0));
      discriminate.
Defined.

Lemma signup_outcomes_witness :
  sent_status
    (fst (signupHandler (ext := collaborators)
            (signup_body (Some "Carol") (Some EmptyString) (Some "pw"))
            (quiet market 0))) = Some 400
  /\ sent_status
       (fst (signupHandler (ext := collaborators)
               (signup_body (Some "Al") (Some "alice@acme.test") (Some "pw"))
               (quiet market 0))) = Some 409
  /\ sent_status
       (fst (signupHandler (ext := collaborators)
               (signup_body (Some "Carol") (Some "carol@cranes.test")
                  (Some "pw"))
               (quiet market 0))) = Some 201.
Proof.
  split; [|split].
  - rewrite (proj1 (signup_outcomes collaborators
                      (signup_body (Some "Carol") (Some EmptyString) (Some "pw"))
                      (quiet market 0))); [reflexivity|].
    exists (Some EmptyString). split; [right; left; reflexivity | right; reflexivity].
  - apply (proj1 (proj2 (signup_outcomes collaborators
                      (signup_body (Some "Al") (Some "alice@acme.test")
                         (Some "pw"))
                      (quiet market 0)))) with (u := alice).
    + repeat constructor.
    + reflexivity.
    + exact market_emails_unique.
    + left. reflexivity.
    + reflexivity.
  - destruct (proj2 (proj2 (signup_outcomes collaborators
                      (signup_body (Some "Carol") (Some "carol@cranes.test")
                         (Some "pw"))
                      (quiet market 0)))) as [created [E _]].
    + repeat constructor.
    + reflexivity.
    + intros u [<-|[<-|[]]]; discriminate.
    + rewrite E. reflexivity.
Defined.

Lemma my_and_others_partition_the_tenders_witness :
  exists mine others,
    fst (myTendersHandler (as_user alice (get EmptyString None)) (quiet market 0))
    = Sent (mkResponse 200
              (JObj [("success", JBool true);
                     ("tenders", JArr (map tender_json mine))]))
    /\ Permutation mine [roof; paint]
    /\ fst (othersTendersHandler (as_user alice (get EmptyString None))
              (quiet market 0))
       = Sent (mkResponse 200 (JObj [("tenders", JArr (map tender_json others))]))
    /\ Permutation others [wall].
Proof.
  destruct (my_and_others_partition_the_tenders
              (as_user alice (get EmptyString None)) (quiet market 0) eq_refl)
    as [mine [others [E1 [P1 [_ [_ [E2 [P2 _]]]]]]]].
  exists mine, others. repeat split; assumption.
Defined.




Lemma createTender_rejects_zero_budget_witness :
  createTenderHandler (as_user alice (tender_body 0)) (quiet market 0)
  = (Sent (message_response 400 "All fields are required"), quiet market 0).
Proof.
  apply (createTender_rejects_zero_budget _ _ 0%Q); reflexivity.
Defined.

(** ** The further properties on concrete requests *)

Lemma market_tender_ids_unique : NoDup (map Tender.id (tenders market)).
Proof.
  simpl. repeat constructor; simpl; intuition discriminate.
Defined.

Lemma market_application_ids_unique :
  NoDup (map Application.id (applications market)).
Proof.
  simpl. repeat constructor; simpl; intuition.
Defined.

Lemma market_user_ids_unique : NoDup (map User.id (users market)).
Proof.
  simpl. repeat constructor; simpl; intuition discriminate.
Defined.

Lemma bearer_token_ends_at_the_next_space_witness :
  sent_status
    (fst (verifyJWT (ext := collaborators) env
            (bearer (alice_token ++ " trailing words")) meHandler
            (quiet market 0))) = Some 200.
Proof.
  rewrite (bearer_token_ends_at_the_next_space (ext := collaborators) env
             (bearer (alice_token ++ " trailing words")) meHandler
             (quiet market 0) alice_token "trailing words");
    reflexivity.
Defined.

Lemma login_issues_a_token_only_on_a_match_witness :
  exists u,
    In u (users market)
    /\ User.email u = "alice@acme.test"
    /\ compare "wonderland" (User.password u) = true.
Proof.
  destruct (login_issues_a_token_only_on_a_match (ext := collaborators) env
              (login_body "alice@acme.test" "wonderland") (quiet market 0)
              eq_refl) as [u [H1 [H2 [H3 _]]]].
  exists u. repeat split; assumption.
Defined.

Lemma login_token_opens_the_gateway_for_an_hour_witness :
  sent_status
    (fst (verifyJWT (ext := collaborators) env (bearer alice_token) meHandler
            (quiet market 3599000))) = Some 200
  /\ sent_status
       (fst (verifyJWT (ext := collaborators) env (bearer alice_token)
               meHandler (quiet market 3600000))) = Some 403.
Proof.
  split.
  - destruct (login_token_opens_the_gateway_for_an_hour
                (ext := collaborators) env
                (login_body "alice@acme.test" "wonderland")
                (bearer alice_token) (quiet market 0) (quiet market 3599000)
                alice_token meHandler decode_encode eq_refl eq_refl eq_refl)
      as [u [Hin [Hmail [Hok _]]]].
    rewrite (Hok eq_refl).
    destruct Hin as [<-|[<-|[]]]; [reflexivity | discriminate Hmail].
  - destruct (login_token_opens_the_gateway_for_an_hour
                (ext := collaborators) env
                (login_body "alice@acme.test" "wonderland")
                (bearer alice_token) (quiet market 0) (quiet market 3600000)
                alice_token meHandler decode_encode eq_refl eq_refl eq_refl)
      as [u [_ [_ [_ Hlate]]]].
    rewrite Hlate; [reflexivity | discriminate].
Defined.

Lemma forged_tokens_are_refused_witness :
  verifyJWT (ext := collaborators) env
    (bearer (JwtLib.signed (ext := collaborators)
               (mkAuthUser "u1" "alice@acme.test") "guessed"
               JwtLib.expiresIn_1h 0))
    meHandler (quiet market 0)
  = (Sent (message_response 403 "Invalid or expired token"), quiet market 0).
Proof.
  apply (forged_tokens_are_refused (ext := collaborators) env _ _ _
           (mkAuthUser "u1" "alice@acme.test") "guessed" 0 decode_encode).
  - reflexivity.
  - discriminate.
  - reflexivity.
Defined.

Lemma a_400_is_answered_before_the_store_witness :
  snd (route (ext := collaborators) env PostLogin
         (login_body "alice@acme.test" EmptyString)
         (failing market 0 outage))
  = failing market 0 outage.
Proof.
  apply (a_400_is_answered_before_the_store (ext := collaborators) env).
  reflexivity.
Defined.

Lemma reading_routes_leave_the_tables_witness :
  db (snd (route (ext := collaborators) env GetSearch
             (with_bearer alice_token (get EmptyString (Some "roof")))
             (quiet market 0)))
  = market.
Proof.
  apply (reading_routes_leave_the_tables (ext := collaborators) env GetSearch).
  reflexivity.
Defined.


Lemma an_application_reaches_the_owner_witness :
  exists listed,
    fst (listApplicationsHandler (as_user alice (get "t1" None))
           (snd (applyHandler (as_user bob (apply_body "t1" (Some "P2")))
                   (quiet market 500))))
    = Sent (mkResponse 200
              (JObj [("applications", JArr (map application_json listed))]))
    /\ In (Application.mk "10" "t1" "u2" "P2" None 500) listed.
Proof.
  destruct (an_application_reaches_the_owner
              (as_user bob (apply_body "t1" (Some "P2")))
              (as_user alice (get "t1" None)) (quiet market 500) roof)
    as [listed [E [Hin _]]];
    try reflexivity; try discriminate.
  - exact market_tender_ids_unique.
  - left. reflexivity.
  - exists listed. split; [exact E | exact Hin].
Defined.

Lemma the_owner_decides_witness :
  fst (updateStatusHandler
         (as_user alice (with_status "a1" (Some (JStr "accepted"))))
         (quiet market 0))
  = Sent (mkResponse 200
            (JObj [("success", JBool true);
                   ("message", JStr "Application accepted")])).
Proof.
  apply (the_owner_decides
           (as_user alice (with_status "a1" (Some (JStr "accepted"))))
           (quiet market 0) "accepted" proposal roof);
    try reflexivity.
  - left. reflexivity.
  - exact market_application_ids_unique.
  - left. reflexivity.
  - exact market_tender_ids_unique.
  - left. reflexivity.
Defined.

Lemma the_applicant_sees_the_decision_witness :
  exists rows,
    fst (myApplicationsHandler (as_user bob (get EmptyString None))
           (snd (updateStatusHandler
                   (as_user alice (with_status "a1" (Some (JStr "rejected"))))
                   (quiet market 0))))
    = Sent (mkResponse 200 (JObj [("applications", JArr rows)]))
    /\ In (JObj [("id", JStr "a1"); ("proposal_text", JStr "P1");
                 ("status", JStr "rejected"); ("created_at", JInt 400);
                 ("tender_id", JStr "t1");
                 ("tenders",
                  JObj [("title", JStr "Roof repair");
                        ("deadline", JStr "2025-09-01")])]) rows.
Proof.
  apply (the_applicant_sees_the_decision
           (as_user alice (with_status "a1" (Some (JStr "rejected"))))
           (as_user bob (get EmptyString None))
           (quiet market 0) "rejected" proposal roof);
    try reflexivity.
  - right. reflexivity.
  - exact market_application_ids_unique.
  - left. reflexivity.
  - exact market_tender_ids_unique.
  - left. reflexivity.
Defined.

Lemma a_created_tender_is_mine_witness :
  tenders (db (snd (createTenderHandler (as_user bob (tender_body (1200 # 1)))
                      (quiet market 900))))
  = [roof; paint; wall;
     Tender.mk "10" "Bridge" "A bridge" (1200 # 1) "2026-01-01" "u2" 900].
Proof.
  apply (a_created_tender_is_mine (as_user bob (tender_body (1200 # 1)))
           (quiet market 900)); reflexivity.
Defined.

Lemma a_new_user_can_log_in_witness :
  exists created,
    fst (signupHandler (ext := collaborators)
           (signup_body (Some "Carol") (Some "carol@cranes.test") (Some "pw"))
           (quiet market 0))
    = Sent (mkResponse 201
              (JObj [("success", JBool true);
                     ("data", user_public_json created)]))
    /\ sent_status
         (fst (loginHandler (ext := collaborators) env
                 (login_body "carol@cranes.test" "pw")
                 (snd (signupHandler (ext := collaborators)
                         (signup_body (Some "Carol")
                            (Some "carol@cranes.test") (Some "pw"))
                         (quiet market 0))))) = Some 200.
Proof.
  destruct (a_new_user_can_log_in (ext := collaborators) env
              (signup_body (Some "Carol") (Some "carol@cranes.test")
                 (Some "pw"))
              (login_body "carol@cranes.test" "pw") (quiet market 0))
    as [created [E1 E2]]; try reflexivity.
  - repeat constructor.
  - exact market_emails_unique.
  - intros u [<-|[<-|[]]]; discriminate.
  - discriminate.
  - exists created. split; [exact E1|]. rewrite E2. reflexivity.
Defined.

Lemma signup_stores_the_logo_witness :
  exists created,
    users (db (snd (signupHandler (ext := collaborators)
                      (with_logo
                         (signup_body (Some "Carol")
                            (Some "carol@cranes.test") (Some "pw"))
                         crane_logo)
                      (quiet market 1700000000000))))
    = [alice; bob; created]
    /\ User.logo created
       = "https://storage.example/logos/1700000000000.png".
Proof.
  destruct (signup_stores_the_logo (ext := collaborators)
              (with_logo
                 (signup_body (Some "Carol") (Some "carol@cranes.test")
                    (Some "pw"))
                 crane_logo)
              (quiet market 1700000000000))
    as [created [E H]].
  - repeat constructor.
  - reflexivity.
  - intros u [<-|[<-|[]]]; discriminate.
  - exists created. split; [exact E|].
    cbn [Req.file with_logo] in H.
    destruct H as [suffix [Hpop [_ [_ [Hlogo _]]]]].
    vm_compute in Hpop. injection Hpop as <-. exact Hlogo.
Defined.

Lemma a_failed_upload_stores_no_user_witness :
  db (snd (signupHandler (ext := collaborators)
             (with_logo
                (signup_body (Some "Carol") (Some "carol@cranes.test")
                   (Some "pw"))
                crane_logo)
             (mkWorld market 0 [None; Some outage] [])))
  = market.
Proof.
  apply (a_failed_upload_stores_no_user (ext := collaborators)
           (with_logo
              (signup_body (Some "Carol") (Some "carol@cranes.test")
                 (Some "pw"))
              crane_logo)
           (mkWorld market 0 [None; Some outage] []) crane_logo outage []).
  - repeat constructor.
  - intros u [<-|[<-|[]]]; discriminate.
  - reflexivity.
  - reflexivity.
Defined.

Lemma me_returns_the_public_profile_witness :
  fst (meHandler (as_user alice (get EmptyString None)) (quiet market 0))
  = Sent (mkResponse 200
            (JObj [("success", JBool true);
                   ("user", user_public_json alice)]))
  /\ fst (meHandler (as_user alice (get EmptyString None))
            (quiet empty_db 0))
     = Sent (message_response 404 "User not found").
Proof.
  split.
  - apply (proj1 (me_returns_the_public_profile
                    (as_user alice (get EmptyString None)) (quiet market 0)
                    eq_refl) alice);
      [exact market_user_ids_unique | left; reflexivity | reflexivity].
  - apply (proj2 (me_returns_the_public_profile
                    (as_user alice (get EmptyString None))
                    (quiet empty_db 0) eq_refl)).
    intros u [].
Defined.

Lemma my_tenders_carry_their_applications_witness :
  exists mine,
    fst (myWithApplicationsHandler (as_user alice (get EmptyString None))
           (quiet market 0))
    = Sent (mkResponse 200
              (JObj [("tenders",
                      JArr (map (tender_with_applications_json market)
                              mine))]))
    /\ (In roof mine /\ In paint mine /\ ~ In wall mine).
Proof.
  destruct (my_tenders_carry_their_applications
              (as_user alice (get EmptyString None)) (quiet market 0) eq_refl)
    as [mine [E [H _]]].
  exists mine. split; [exact E|]. repeat split.
  - apply H. split; [left; reflexivity | reflexivity].
  - apply H. split; [right; left; reflexivity | reflexivity].
  - intros Hin. apply H in Hin as [_ Hin]. discriminate Hin.
Defined.
